(** * Depthwise-separable convolution layers of TensorLayer

    A shallow embedding of [tensorlayer/layers/convolution/separable_conv.py]:
    the two classes [SeparableConv1d] and [SeparableConv2d], their
    constructor, their textual description and their application to a
    previous layer.

    The two classes have the same body up to the type of the spatial
    arguments, the default values, the format strings and the primitive
    they call.  They are embedded once, indexed by a [Rank]; the modules
    [SeparableConv1d] and [SeparableConv2d] at the end of the definitions
    give each class its methods under the names of the source.

    Python objects are records whose fields are optional: [None] at the
    outer level means that the attribute has not been set on the instance
    (reading it raises [AttributeError]).  Methods run in a state monad whose
    state is the receiver [self] and the ambient TensorFlow graph, and whose
    results are values or raised exceptions; the state survives an
    exception, as it does in Python. *)

From Stdlib Require Import ZArith List String Ascii Bool Lia DecimalString.
Import ListNotations.
Open Scope string_scope.

Set Implicit Arguments.

(** ** Python strings and formatting *)

Module Py.

(** Strings are their bytes.  [str.lower] is modelled on the letters A-Z;
    no other code point is mapped by Python to a letter of ["same"] or
    ["valid"], so the membership tests of the constructor are the same. *)
Definition is_upper_letter (c : ascii) : bool :=
  let n := nat_of_ascii c in ((65 <=? n) && (n <=? 90))%nat.

Definition is_lower_letter (c : ascii) : bool :=
  let n := nat_of_ascii c in ((97 <=? n) && (n <=? 122))%nat.

Definition lower_char (c : ascii) : ascii :=
  if is_upper_letter c then ascii_of_nat (nat_of_ascii c + 32) else c.

Definition upper_char (c : ascii) : ascii :=
  if is_lower_letter c then ascii_of_nat (nat_of_ascii c - 32) else c.

Fixpoint lower (s : string) : string :=
  match s with
  | EmptyString => EmptyString
  | String c s' => String (lower_char c) (lower s')
  end.

(** [x in l] on a list of strings: comparison with [==]. *)
Definition str_in (x : string) (l : list string) : bool :=
  existsb (String.eqb x) l.

(** [str(n)], and so ["%d" % n] and ["%s" % n], for an integer. *)
Definition str_int (n : Z) : string :=
  NilZero.string_of_int (Z.to_int n).

End Py.

(** [s] is obtained from [t] by writing some of its lowercase letters in
    uppercase. *)
Inductive case_variant : string -> string -> Prop :=
| cv_nil : case_variant "" ""
| cv_same c s t :
    case_variant s t -> case_variant (String c s) (String c t)
| cv_upper c s t :
    Py.is_lower_letter c = true ->
    case_variant s t -> case_variant (String (Py.upper_char c) s) (String c t).

(** ** Exceptions and the method monad *)

Inductive exn :=
| ValueError (msg : string)
| AttributeError (attr : string).

Inductive Result (A : Type) :=
| Ok (a : A)
| Raise (e : exn).

Arguments Ok {A} a.
Arguments Raise {A} e.

Definition M (S A : Type) : Type := S -> Result A * S.

Definition ret {S A} (a : A) : M S A := fun s => (Ok a, s).

Definition raise {S A} (e : exn) : M S A := fun s => (Raise e, s).

Definition bind {S A B} (m : M S A) (f : A -> M S B) : M S B :=
  fun s =>
    match m s with
    | (Ok a, s') => f a s'
    | (Raise e, s') => (Raise e, s')
    end.

Notation "'let*' x ':=' m 'in' k" := (bind m (fun x => k))
  (at level 10, x name, m at level 100, k at level 200).

Definition outcome {S A} (x : Result A * S) : Result A := fst x.
Definition final {S A} (x : Result A * S) : S := snd x.

(** ** Tensors, initializers, activations *)

(** Tensors are symbolic nodes of the graph. *)
Inductive Tensor :=
| placeholder (id : nat)
| op_output (n : nat)
| applied (fname : string) (t : Tensor).

Inductive Initializer :=
| zeros_initializer
| custom_initializer (id : nat).

(** A callable; [act_name] is its [__name__], which a callable object or a
    [functools.partial] does not have. *)
Record Activation := {
  act_name : option string;
  act_call : Tensor -> Tensor
}.

(** ** Spatial arguments *)

Inductive Rank := Rank1d | Rank2d.

(** [tuple/list of 2 int], or a single integer. *)
Inductive IntOrPair :=
| single (n : Z)
| tuple2 (a b : Z)
| list2 (a b : Z).

(** The type the docstrings give to [filter_size], [strides] and
    [dilation_rate]: [int] for the 1D class, an integer or a pair for the
    2D class. *)
Definition spatial (r : Rank) : Type :=
  match r with
  | Rank1d => Z
  | Rank2d => IntOrPair
  end.

(** [str(v)] *)
Definition str_spatial2 (v : IntOrPair) : string :=
  match v with
  | single n => Py.str_int n
  | tuple2 a b => "(" ++ Py.str_int a ++ ", " ++ Py.str_int b ++ ")"
  | list2 a b => "[" ++ Py.str_int a ++ ", " ++ Py.str_int b ++ "]"
  end.

(** ** The TensorFlow graph *)

Inductive Role := depthwise_kernel | pointwise_kernel | bias.

Definition role_eqb (a b : Role) : bool :=
  match a, b with
  | depthwise_kernel, depthwise_kernel => true
  | pointwise_kernel, pointwise_kernel => true
  | bias, bias => true
  | _, _ => false
  end.

Record TFVar := {
  var_scope : string;
  var_role : Role;
  var_trainable : bool;
  var_initializer : option Initializer
}.

(** The keyword arguments of [tf.layers.separable_conv1d] and
    [tf.layers.separable_conv2d], as the layer passes them. *)
Record PrimArgs (r : Rank) := {
  kw_inputs : Tensor;
  kw_filters : Z;
  kw_kernel_size : spatial r;
  kw_strides : spatial r;
  kw_padding : string;
  kw_data_format : string;
  kw_dilation_rate : spatial r;
  kw_depth_multiplier : Z;
  kw_activation : option Activation;
  kw_use_bias : bool;
  kw_depthwise_initializer : option Initializer;
  kw_pointwise_initializer : option Initializer;
  kw_bias_initializer : option Initializer;
  kw_trainable : bool;
  kw_reuse : bool;
  kw_name : string
}.

(** A node of the graph: one invocation of the primitive, with the
    variables it is bound to. *)
Record OpNode := {
  op_rank : Rank;
  op_kwargs : PrimArgs op_rank;
  op_weights : list TFVar
}.

Record Graph := {
  scope_name : string;
  scope_reuse : bool;
  variables : list TFVar;
  operations : list OpNode
}.

Inductive GraphKey := GLOBAL_VARIABLES | TRAINABLE_VARIABLES.

(** A previous layer, as far as a following layer reads it. *)
Record LayerRef := {
  layer_outputs : Tensor;
  layer_all_layers : list Tensor;
  layer_all_params : list TFVar
}.

(** ** Constructor arguments and instances *)

(** The keyword arguments of [__init__]; [None] is an argument left out. *)
Record Args (r : Rank) := {
  arg_prev_layer : option (option LayerRef);
  arg_n_filter : option Z;
  arg_filter_size : option (spatial r);
  arg_strides : option (spatial r);
  arg_padding : option string;
  arg_data_format : option string;
  arg_dilation_rate : option (spatial r);
  arg_depth_multiplier : option Z;
  arg_depthwise_init : option (option Initializer);
  arg_pointwise_init : option (option Initializer);
  arg_b_init : option (option Initializer);
  arg_act : option (option Activation);
  arg_name : option string
}.

(** The attributes of an instance.  The inner [option] of [prev_layer],
    the initializers and [act] is Python's [None]. *)
Record Instance (r : Rank) := {
  prev_layer : option (option LayerRef);
  n_filter : option Z;
  filter_size : option (spatial r);
  strides : option (spatial r);
  padding : option string;
  data_format : option string;
  dilation_rate : option (spatial r);
  depth_multiplier : option Z;
  depthwise_init : option (option Initializer);
  pointwise_init : option (option Initializer);
  b_init : option (option Initializer);
  act : option (option Activation);
  name : option string;
  inputs : option Tensor;
  outputs : option Tensor;
  _local_weights : option (list TFVar);
  all_layers : list Tensor;
  all_params : list TFVar
}.

(** A freshly allocated object: no attribute yet. *)
Definition empty_instance (r : Rank) : Instance r :=
  {| prev_layer := None; n_filter := None; filter_size := None;
     strides := None; padding := None; data_format := None;
     dilation_rate := None; depth_multiplier := None;
     depthwise_init := None; pointwise_init := None; b_init := None;
     act := None; name := None; inputs := None; outputs := None;
     _local_weights := None; all_layers := []; all_params := [] |}.

(** The state of a method call: the receiver and the ambient graph. *)
Definition St (r : Rank) : Type := (Instance r * Graph)%type.

Definition Method (r : Rank) (A : Type) : Type := M (St r) A.

(** [self.attr]: raises [AttributeError] when the attribute is not set. *)
Definition getattr {r A} (attr : string) (proj : Instance r -> option A)
  : Method r A :=
  fun s =>
    match proj (fst s) with
    | Some v => (Ok v, s)
    | None => (Raise (AttributeError attr), s)
    end.

(** Runs an operation of the graph inside a method. *)
Definition on_graph {r A} (m : M Graph A) : Method r A :=
  fun s => let (x, g') := m (snd s) in (x, (fst s, g')).

Definition update_self {r} (f : Instance r -> Instance r) : Method r unit :=
  fun s => (Ok tt, (f (fst s), snd s)).

(** Replaces the attributes that are set after construction. *)
Definition with_runtime {r} (i : Instance r)
    (inp out : option Tensor) (lw : option (list TFVar))
    (al : list Tensor) (ap : list TFVar) : Instance r :=
  {| prev_layer := prev_layer i; n_filter := n_filter i;
     filter_size := filter_size i; strides := strides i;
     padding := padding i; data_format := data_format i;
     dilation_rate := dilation_rate i;
     depth_multiplier := depth_multiplier i;
     depthwise_init := depthwise_init i;
     pointwise_init := pointwise_init i; b_init := b_init i;
     act := act i; name := name i;
     inputs := inp; outputs := out; _local_weights := lw;
     all_layers := al; all_params := ap |}.

(** [self.outputs = v] *)
Definition set_outputs {r} (v : Tensor) (i : Instance r) : Instance r :=
  with_runtime i (inputs i) (Some v) (_local_weights i)
    (all_layers i) (all_params i).

(** [self._local_weights = v] *)
Definition set_local_weights {r} (v : list TFVar) (i : Instance r)
  : Instance r :=
  with_runtime i (inputs i) (outputs i) (Some v)
    (all_layers i) (all_params i).

(** ** Operations of the graph *)

(** Modelled from TensorFlow's documentation: a variable scope opened
    inside another one is named [outer/name]. *)
Definition scope_join (outer nm : string) : string :=
  if String.eqb outer "" then nm else outer ++ "/" ++ nm.

Definition set_scope (nm : string) (g : Graph) : Graph :=
  {| scope_name := nm; scope_reuse := scope_reuse g;
     variables := variables g; operations := operations g |}.

(** [tf.get_variable_scope().reuse] *)
Definition get_variable_scope_reuse : M Graph bool :=
  fun g => (Ok (scope_reuse g), g).

(** [with tf.variable_scope(nm) as vs: body]; [vs] stands for [vs.name].
    The scope is left when the body returns or raises.  TensorFlow refuses
    to open a scope whose name is not a valid scope name; the model opens
    any scope, and agrees with TensorFlow on the names that it accepts
    (see [safe_scope_name]). *)
Definition variable_scope {r A} (nm : string) (body : string -> Method r A)
  : Method r A :=
  fun s =>
    let g := snd s in
    let vs := scope_join (scope_name g) nm in
    let (x, s') := body vs (fst s, set_scope vs g) in
    (x, (fst s', set_scope (scope_name g) (snd s'))).

Definition role_name (ro : Role) : string :=
  match ro with
  | depthwise_kernel => "depthwise_kernel"
  | pointwise_kernel => "pointwise_kernel"
  | bias => "bias"
  end.

Definition var_name (v : TFVar) : string :=
  var_scope v ++ "/" ++ role_name (var_role v).

Definition same_var (scope : string) (ro : Role) (v : TFVar) : bool :=
  String.eqb (var_scope v) scope && role_eqb (var_role v) ro.

Definition add_variable (v : TFVar) (g : Graph) : Graph :=
  {| scope_name := scope_name g; scope_reuse := scope_reuse g;
     variables := (variables g ++ [v])%list; operations := operations g |}.

Definition variable_exists_msg : string :=
  "Variable already exists, disallowed.".

Definition variable_missing_msg : string :=
  "Variable does not exist, or was not created with tf.get_variable().".

(** Modelled from the spec: under a reuse context a variable of a scope
    that already exists is bound to the same storage, not allocated again;
    without reuse a colliding name is rejected by the framework.  A missing
    variable is created, except under reuse, where TensorFlow rejects it.
    The reuse flag is [True] or [False]; the third value that TensorFlow
    has, [tf.AUTO_REUSE], is outside the model. *)
Definition get_variable (scope : string) (ro : Role) (trainable reuse : bool)
    (init : option Initializer) : M Graph TFVar :=
  fun g =>
    match find (same_var scope ro) (variables g) with
    | Some v =>
        if reuse then (Ok v, g)
        else (Raise (ValueError variable_exists_msg), g)
    | None =>
        if reuse then (Raise (ValueError variable_missing_msg), g)
        else
          let v := {| var_scope := scope; var_role := ro;
                      var_trainable := trainable;
                      var_initializer := init |} in
          (Ok v, add_variable v g)
    end.

Definition add_operation (op : OpNode) : M Graph Tensor :=
  fun g =>
    (Ok (op_output (List.length (operations g))),
     {| scope_name := scope_name g; scope_reuse := scope_reuse g;
        variables := variables g;
        operations := (operations g ++ [op])%list |}).

(** Modelled from the spec: the external primitive, a depthwise pass
    followed by a pointwise mix.  It binds its kernels, and its bias when
    [use_bias] is set, in the scope [name] under the current scope, adds
    its operation to the graph and returns the output tensor, through
    [activation] when one is given.  What the primitive itself rejects (a
    stride and a dilation rate that both differ from 1, an input of the
    wrong shape) is outside the model, where it fails through its
    variables only: the statements below about an application that
    returns say what holds when it does, and none says that it does. *)
Definition separable_conv {r} (kw : PrimArgs r) : M Graph Tensor :=
  fun g =>
    let scope := scope_join (scope_name g) (kw_name kw) in
    let reuse := kw_reuse kw || scope_reuse g in
    (let* dw := get_variable scope depthwise_kernel (kw_trainable kw) reuse
                  (kw_depthwise_initializer kw) in
     let* pw := get_variable scope pointwise_kernel (kw_trainable kw) reuse
                  (kw_pointwise_initializer kw) in
     let* bs := (if kw_use_bias kw
                 then let* b := get_variable scope bias (kw_trainable kw)
                                  reuse (kw_bias_initializer kw) in
                      ret [b]
                 else ret []) in
     let* raw := add_operation
                   {| op_rank := r; op_kwargs := kw;
                      op_weights := dw :: pw :: bs |} in
     ret (match kw_activation kw with
          | Some f => act_call f raw
          | None => raw
          end)) g.

Definition in_collection (key : GraphKey) (v : TFVar) : bool :=
  match key with
  | GLOBAL_VARIABLES => true
  | TRAINABLE_VARIABLES => var_trainable v
  end.

(** Modelled from TensorFlow's documentation of [tf.get_collection]: with
    a [scope], the items of the collection whose name matches it from the
    start, in the order they were created.  TensorFlow reads the scope as
    a regular expression; for a scope without special tokens (see
    [literal_name]) that is the test below, that the name starts with the
    scope, and the statements that give the list of the variables
    collected ask for such a scope. *)
Definition in_scope (scope : string) (v : TFVar) : bool :=
  prefix scope (var_name v).

Definition get_collection (key : GraphKey) (scope : string)
  : M Graph (list TFVar) :=
  fun g =>
    (Ok (filter (fun v => in_collection key v && in_scope scope v)
           (variables g)), g).

(** ** The base class and the decorators

    [tensorlayer.layers.core.Layer] and [tensorlayer.decorators] are not
    part of the file.  [deprecated_alias] only renames the keyword [layer]
    to [prev_layer] before the constructor runs and is left out. *)

Module Layer.

(** Modelled from the spec: the base constructor; construction stores
    the configuration and does not touch any tensor yet. *)
Definition __init__ {r} : Method r unit := ret tt.

(** Modelled from the spec: the base [__call__] chains the layer to its
    predecessor: the predecessor's output tensor becomes the current
    input tensor, and the running history of outputs and parameters is
    carried over. *)
Definition __call__ {r} (prev : LayerRef) : Method r unit :=
  update_self (fun i : Instance r =>
    with_runtime i (Some (layer_outputs prev)) (outputs i)
      (_local_weights i) (layer_all_layers prev) (layer_all_params prev)).

(** Modelled from the spec: the [_apply_activation] helper; it returns
    the activation applied to the tensor it is given when an activation
    is configured, and the tensor itself otherwise.  Tensors are
    immutable: the helper changes neither its argument nor the
    instance. *)
Definition _apply_activation {r} (logits : Tensor) : Method r Tensor :=
  let* a := getattr "act" (@act r) in
  ret (match a with
       | Some f => act_call f logits
       | None => logits
       end).

(** Modelled from the spec: appends the tensor to the running output
    history. *)
Definition _add_layers {r} (t : Tensor) : Method r unit :=
  update_self (fun i : Instance r =>
    with_runtime i (inputs i) (outputs i) (_local_weights i)
      (all_layers i ++ [t])%list (all_params i)).

(** Modelled from the spec: registers the parameters with the layer
    graph. *)
Definition _add_params {r} (ws : list TFVar) : Method r unit :=
  update_self (fun i : Instance r =>
    with_runtime i (inputs i) (outputs i) (_local_weights i)
      (all_layers i) (all_params i ++ ws)%list).

End Layer.

(** Modelled from the spec: [force_return_self] wraps a method so that the
    call returns the layer instance itself, whatever the body returns. *)
Definition force_return_self {r A} (body : Method r A)
  : Method r (Instance r) :=
  let* _ := body in
  fun s => (Ok (fst s), s).

(** ** The two classes *)

Definition default_filter_size (r : Rank) : spatial r :=
  match r with
  | Rank1d => 3%Z
  | Rank2d => tuple2 3 3
  end.

Definition default_strides (r : Rank) : spatial r :=
  match r with
  | Rank1d => 1%Z
  | Rank2d => tuple2 1 1
  end.

Definition default_dilation_rate (r : Rank) : spatial r :=
  match r with
  | Rank1d => 1%Z
  | Rank2d => tuple2 1 1
  end.

Definition default_name (r : Rank) : string :=
  match r with
  | Rank1d => "separable_conv1d"
  | Rank2d => "separable_conv2d"
  end.

(** The [name] the layer gives to the primitive. *)
Definition primitive_name (r : Rank) : string :=
  match r with
  | Rank1d => "separable_conv1d"
  | Rank2d => "separable_conv2d"
  end.

Definition data_format_msg : string :=
  "`data_format` value is not valid, should be either: 'channels_last' or 'channels_first'".

Definition padding_msg : string :=
  "`padding` value is not valid, should be either: 'same' or 'valid'".

(** ["filter_size: %d" % self.filter_size] and
    ["filter_size: %s" % str(self.filter_size)] *)
Definition fmt_filter_size (r : Rank) : spatial r -> string :=
  match r with
  | Rank1d => fun v => "filter_size: " ++ Py.str_int v
  | Rank2d => fun v => "filter_size: " ++ str_spatial2 v
  end.

(** ["strides: %s" % self.strides] and ["stride: %s" % str(self.strides)] *)
Definition fmt_strides (r : Rank) : spatial r -> string :=
  match r with
  | Rank1d => fun v => "strides: " ++ Py.str_int v
  | Rank2d => fun v => "stride: " ++ str_spatial2 v
  end.

(** ["dilation_rate: %s" % self.dilation_rate] and
    ["dilation_rate: %s" % str(self.dilation_rate)] *)
Definition fmt_dilation_rate (r : Rank) : spatial r -> string :=
  match r with
  | Rank1d => fun v => "dilation_rate: " ++ Py.str_int v
  | Rank2d => fun v => "dilation_rate: " ++ str_spatial2 v
  end.

(** An argument, or its default when it is left out. *)
Definition keyword {A} (given : option A) (default : A) : A :=
  match given with
  | Some v => v
  | None => default
  end.

(** [f.__name__] *)
Definition callable_name {S} (f : Activation) : M S string :=
  match act_name f with
  | Some nm => ret nm
  | None => raise (AttributeError "__name__")
  end.

(** [try: additional_str.append(e) except AttributeError: pass] *)
Definition try_append {S} (additional_str : list string) (e : M S string)
  : M S (list string) :=
  fun s =>
    match e s with
    | (Ok x, s') => (Ok (additional_str ++ [x])%list, s')
    | (Raise (AttributeError _), s') => (Ok additional_str, s')
    | (Raise e, s') => (Raise e, s')
    end.

Module SeparableConv.
Section Class.

(** Two names of [tensorlayer.layers.core] that the file uses and does
    not define: the key of the collection of variables, and the base
    class's [_str], which formats the final description from the list
    it is given. *)
Variable TF_GRAPHKEYS_VARIABLES : GraphKey.
Variable Layer__str : forall r, Instance r -> list string -> string.

Variable r : Rank.

(** The thirteen assignments [self.x = x] of the constructor; none of
    them can raise, and they are made as one update. *)
Definition store_config
    (prev_layer : option LayerRef) (n_filter : Z)
    (filter_size strides : spatial r) (padding data_format : string)
    (dilation_rate : spatial r) (depth_multiplier : Z)
    (depthwise_init pointwise_init b_init : option Initializer)
    (act : option Activation) (name : string)
    (self : Instance r) : Instance r :=
  {| prev_layer := Some prev_layer; n_filter := Some n_filter;
     filter_size := Some filter_size; strides := Some strides;
     padding := Some padding; data_format := Some data_format;
     dilation_rate := Some dilation_rate;
     depth_multiplier := Some depth_multiplier;
     depthwise_init := Some depthwise_init;
     pointwise_init := Some pointwise_init; b_init := Some b_init;
     act := Some act; name := Some name;
     inputs := inputs self; outputs := outputs self;
     _local_weights := _local_weights self;
     all_layers := all_layers self; all_params := all_params self |}.

Definition __init__
    (prev_layer : option LayerRef) (n_filter : Z)
    (filter_size strides : spatial r) (padding data_format : string)
    (dilation_rate : spatial r) (depth_multiplier : Z)
    (depthwise_init pointwise_init b_init : option Initializer)
    (act : option Activation) (name : string) : Method r unit :=
  if negb (Py.str_in data_format ["channels_last"; "channels_first"])
  then raise (ValueError data_format_msg)
  else
    if negb (Py.str_in (Py.lower padding) ["same"; "valid"])
    then raise (ValueError padding_msg)
    else
      let* _ := update_self
                  (store_config prev_layer n_filter filter_size strides
                     padding data_format dilation_rate depth_multiplier
                     depthwise_init pointwise_init b_init act name) in
      Layer.__init__.

(** Calling the class: a fresh object, then [__init__] with the
    defaults of its signature for the arguments left out. *)
Definition construct (a : Args r) (g : Graph) : Result unit * St r :=
  __init__
    (keyword (arg_prev_layer a) None)
    (keyword (arg_n_filter a) 100%Z)
    (keyword (arg_filter_size a) (default_filter_size r))
    (keyword (arg_strides a) (default_strides r))
    (keyword (arg_padding a) "valid")
    (keyword (arg_data_format a) "channels_last")
    (keyword (arg_dilation_rate a) (default_dilation_rate r))
    (keyword (arg_depth_multiplier a) 1%Z)
    (keyword (arg_depthwise_init a) None)
    (keyword (arg_pointwise_init a) None)
    (keyword (arg_b_init a) (Some zeros_initializer))
    (keyword (arg_act a) None)
    (keyword (arg_name a) (default_name r))
    (empty_instance r, g).

Definition __str__ : Method r string :=
  let additional_str := [] in
  let* additional_str :=
    try_append additional_str
      (let* v := getattr "n_filter" (@n_filter r) in
       ret ("n_filter: " ++ Py.str_int v)) in
  let* additional_str :=
    try_append additional_str
      (let* v := getattr "filter_size" (@filter_size r) in
       ret (fmt_filter_size r v)) in
  let* additional_str :=
    try_append additional_str
      (let* v := getattr "strides" (@strides r) in
       ret (fmt_strides r v)) in
  let* additional_str :=
    try_append additional_str
      (let* v := getattr "padding" (@padding r) in
       ret ("padding: " ++ v)) in
  let* additional_str :=
    try_append additional_str
      (let* v := getattr "dilation_rate" (@dilation_rate r) in
       ret (fmt_dilation_rate r v)) in
  let* additional_str :=
    try_append additional_str
      (let* v := getattr "depth_multiplier" (@depth_multiplier r) in
       ret ("depth_multiplier: " ++ Py.str_int v)) in
  let* additional_str :=
    try_append additional_str
      (let* a := getattr "act" (@act r) in
       match a with
       | Some f => let* nm := callable_name f in ret ("act: " ++ nm)
       | None => ret "No Activation"
       end) in
  fun s => (Ok (Layer__str (fst s) additional_str), s).

(** The body of [__call__], before its decorator. *)
Definition __call___body (prev_layer : LayerRef) (is_train : bool)
  : Method r unit :=
  let* _ := Layer.__call__ prev_layer in
  let* is_name_reuse := on_graph get_variable_scope_reuse in
  let* nm := getattr "name" (@name r) in
  let* _ :=
    variable_scope nm (fun vs =>
      let* x_inputs := getattr "inputs" (@inputs r) in
      let* x_filters := getattr "n_filter" (@n_filter r) in
      let* x_kernel_size := getattr "filter_size" (@filter_size r) in
      let* x_strides := getattr "strides" (@strides r) in
      let* x_padding := getattr "padding" (@padding r) in
      let* x_data_format := getattr "data_format" (@data_format r) in
      let* x_dilation_rate := getattr "dilation_rate" (@dilation_rate r) in
      let* x_depth_multiplier :=
        getattr "depth_multiplier" (@depth_multiplier r) in
      let* x_b_init := getattr "b_init" (@b_init r) in
      let* x_depthwise := getattr "depthwise_init" (@depthwise_init r) in
      let* x_pointwise := getattr "pointwise_init" (@pointwise_init r) in
      let* x_bias := getattr "b_init" (@b_init r) in
      let* out :=
        on_graph (separable_conv
          {| kw_inputs := x_inputs;
             kw_filters := x_filters;
             kw_kernel_size := x_kernel_size;
             kw_strides := x_strides;
             kw_padding := x_padding;
             kw_data_format := x_data_format;
             kw_dilation_rate := x_dilation_rate;
             kw_depth_multiplier := x_depth_multiplier;
             kw_activation := None;
             kw_use_bias := match x_b_init with
                            | Some _ => true
                            | None => false
                            end;
             kw_depthwise_initializer := x_depthwise;
             kw_pointwise_initializer := x_pointwise;
             kw_bias_initializer := x_bias;
             kw_trainable := is_train;
             kw_reuse := is_name_reuse;
             kw_name := primitive_name r |}) in
      let* _ := update_self (set_outputs out) in
      let* o := getattr "outputs" (@outputs r) in
      let* _ := Layer._apply_activation o in
      let* ws := on_graph (get_collection TF_GRAPHKEYS_VARIABLES vs) in
      update_self (set_local_weights ws)) in
  let* o := getattr "outputs" (@outputs r) in
  let* _ := Layer._add_layers o in
  let* ws := getattr "_local_weights" (@_local_weights r) in
  Layer._add_params ws.

Definition __call__ (prev_layer : LayerRef) (is_train : bool)
  : Method r (Instance r) :=
  force_return_self (__call___body prev_layer is_train).

End Class.
End SeparableConv.

Module SeparableConv1d.
Definition __init__ := @SeparableConv.__init__ Rank1d.
Definition construct := @SeparableConv.construct Rank1d.
Definition __str__ Layer__str := @SeparableConv.__str__ Layer__str Rank1d.
Definition __call__ key := @SeparableConv.__call__ key Rank1d.
End SeparableConv1d.

Module SeparableConv2d.
Definition __init__ := @SeparableConv.__init__ Rank2d.
Definition construct := @SeparableConv.construct Rank2d.
Definition __str__ Layer__str := @SeparableConv.__str__ Layer__str Rank2d.
Definition __call__ key := @SeparableConv.__call__ key Rank2d.
End SeparableConv2d.

(** ** The description, as the spec words it

    The summary lists whichever attributes are set, in the order of the
    source; an attribute that is not set contributes nothing.  The last
    entry names the activation, or says that there is none; an activation
    without a [__name__] contributes nothing. *)

Definition entry {A} (attr : option A) (fmt : A -> string) : list string :=
  match attr with
  | Some v => [fmt v]
  | None => []
  end.

Definition act_entry (attr : option (option Activation)) : list string :=
  match attr with
  | Some (Some f) => entry (act_name f) (fun nm => "act: " ++ nm)
  | Some None => ["No Activation"]
  | None => []
  end.

Definition summary_spec {r} (self : Instance r) : list string :=
  (entry (n_filter self) (fun v => ("n_filter: " ++ Py.str_int v)%string)
   ++ entry (filter_size self) (fmt_filter_size r)
   ++ entry (strides self) (fmt_strides r)
   ++ entry (padding self) (fun v => ("padding: " ++ v)%string)
   ++ entry (dilation_rate self) (fmt_dilation_rate r)
   ++ entry (depth_multiplier self)
        (fun v => ("depth_multiplier: " ++ Py.str_int v)%string)
   ++ act_entry (act self))%list.

(** ** The application, in the words of its steps *)

(** The keyword arguments that [__call__] passes to the primitive, as a
    function of the attributes it reads. *)
Definition call_kwargs {r} (x_inputs : Tensor) (nf : Z) (fs st : spatial r)
    (pad df : string) (dil : spatial r) (dm : Z)
    (dwi pwi bi : option Initializer) (is_train reuse : bool) : PrimArgs r :=
  {| kw_inputs := x_inputs; kw_filters := nf; kw_kernel_size := fs;
     kw_strides := st; kw_padding := pad; kw_data_format := df;
     kw_dilation_rate := dil; kw_depth_multiplier := dm;
     kw_activation := None;
     kw_use_bias := match bi with Some _ => true | None => false end;
     kw_depthwise_initializer := dwi; kw_pointwise_initializer := pwi;
     kw_bias_initializer := bi; kw_trainable := is_train;
     kw_reuse := reuse; kw_name := primitive_name r |}.

(** The variables of the collection [key] whose name starts with
    [scope]. *)
Definition collected (key : GraphKey) (scope : string) (g : Graph)
  : list TFVar :=
  filter (fun v => in_collection key v && in_scope scope v) (variables g).

(** The instance after a successful application to [prev] that produced
    the tensor [out] and collected the variables [ws]. *)
Definition applied_instance {r} (self : Instance r) (prev : LayerRef)
    (out : Tensor) (ws : list TFVar) : Instance r :=
  with_runtime self (Some (layer_outputs prev)) (Some out) (Some ws)
    (layer_all_layers prev ++ [out])%list (layer_all_params prev ++ ws)%list.

(** The two errors of the validation of the configuration. *)
Definition validation_error (e : exn) : Prop :=
  e = ValueError data_format_msg \/ e = ValueError padding_msg.

(** Every exception that [m] can raise satisfies [P]. *)
Definition raises_only {S A} (P : exn -> Prop) (m : M S A) : Prop :=
  forall s e s', m s = (Raise e, s') -> P e.

(** ** The parameters of a layer *)

(** Whether [v] is one of the parameters of a layer of scope [vs] whose
    bias initializer is [bi]: a kernel of its primitive, or the bias when
    a bias initializer was supplied. *)
Definition is_own_parameter (r : Rank) (vs : string)
    (bi : option Initializer) (v : TFVar) : Prop :=
  var_scope v = scope_join vs (primitive_name r)
  /\ (var_role v = depthwise_kernel
      \/ var_role v = pointwise_kernel
      \/ (var_role v = bias /\ bi <> None)).

(** The claim that an application registers these parameters and no
    others. *)
Definition registers_exactly_own_parameters (key : GraphKey) (r : Rank)
    (prev : LayerRef) (is_train : bool) (self : Instance r) (g : Graph)
  : Prop :=
  forall ret s' nm bi,
    SeparableConv.__call__ key prev is_train (self, g) = (Ok ret, s') ->
    name self = Some nm ->
    b_init self = Some bi ->
    exists ws,
      _local_weights ret = Some ws
      /\ forall v,
          In v ws
          <-> In v (variables (snd s'))
              /\ is_own_parameter r (scope_join (scope_name g) nm) bi v.

(** The variables that the primitive creates for a layer of scope [vs]
    applied for the first time. *)
Definition own_parameters (r : Rank) (vs : string) (is_train : bool)
    (dwi pwi bi : option Initializer) : list TFVar :=
  ([ {| var_scope := scope_join vs (primitive_name r);
        var_role := depthwise_kernel;
        var_trainable := is_train; var_initializer := dwi |};
     {| var_scope := scope_join vs (primitive_name r);
        var_role := pointwise_kernel;
        var_trainable := is_train; var_initializer := pwi |} ]
   ++ match bi with
      | Some _ => [ {| var_scope := scope_join vs (primitive_name r);
                       var_role := bias;
                       var_trainable := is_train;
                       var_initializer := bi |} ]
      | None => []
      end)%list.

(** No variable of the graph has a name that starts with [vs]. *)
Definition fresh_scope (vs : string) (g : Graph) : Prop :=
  forall v, In v (variables g) -> in_scope vs v = false.

(** [with tf.variable_scope(tf.get_variable_scope(), reuse=True)] *)
Definition reusing (g : Graph) : Graph :=
  {| scope_name := scope_name g; scope_reuse := true;
     variables := variables g; operations := operations g |}.

(** ** What an application leaves alone *)

(** The configuration of an instance: its attributes, without those that
    an application sets. *)
Definition config {r} (i : Instance r) : Instance r :=
  with_runtime i None None None [] [].

(** [g'] has the scope of [g], and the variables and the operations of
    [g] followed by others. *)
Definition graph_frame (g g' : Graph) : Prop :=
  scope_name g' = scope_name g
  /\ scope_reuse g' = scope_reuse g
  /\ (exists vs, variables g' = (variables g ++ vs)%list)
  /\ (exists ops, operations g' = (operations g ++ ops)%list).

Definition call_frame {r} (s s' : St r) : Prop :=
  config (fst s') = config (fst s) /\ graph_frame (snd s) (snd s').

(** Whatever its outcome, [m] takes a state to a state related by [R]. *)
Definition steps {S A} (R : S -> S -> Prop) (m : M S A) : Prop :=
  forall s, R s (snd (m s)).

(** ** Scope names

    TensorFlow reads the scope of [tf.get_collection] as a regular
    expression and rejects, when a scope is opened, a name that is not a
    valid scope name.  The two predicates below describe names on which
    the model and TensorFlow agree. *)

(** A letter, a digit, ['_'], ['-'] or ['/']: a character that stands for
    itself in a regular expression and that a scope name may hold. *)
Definition literal_char (c : ascii) : bool :=
  let n := nat_of_ascii c in
  (((48 <=? n) && (n <=? 57)) || ((65 <=? n) && (n <=? 90))
   || ((97 <=? n) && (n <=? 122))
   || (n =? 95) || (n =? 45) || (n =? 47))%nat.

(** A name without special tokens of regular expressions: as the scope of
    a lookup it matches exactly the names that start with it. *)
Fixpoint literal_name (s : string) : bool :=
  match s with
  | EmptyString => true
  | String c s' => literal_char c && literal_name s'
  end.

(** A name that TensorFlow accepts wherever the scope is opened: it is not
    empty, starts with a letter or a digit and goes on with letters,
    digits, ['_'], ['-'] and ['/']. *)
Definition safe_scope_name (s : string) : bool :=
  match s with
  | EmptyString => false
  | String c s' =>
      let n := nat_of_ascii c in
      (((48 <=? n) && (n <=? 57)) || ((65 <=? n) && (n <=? 90))
       || ((97 <=? n) && (n <=? 122)))%nat
      && literal_name s'
  end.

(** ** Inputs used in the examples *)

(** The default graph before any layer is built. *)
Definition root_graph : Graph :=
  {| scope_name := ""; scope_reuse := false;
     variables := []; operations := [] |}.

(** A call of the constructor with every argument left out. *)
Definition no_args (r : Rank) : Args r :=
  {| arg_prev_layer := None; arg_n_filter := None;
     arg_filter_size := None; arg_strides := None;
     arg_padding := None; arg_data_format := None;
     arg_dilation_rate := None; arg_depth_multiplier := None;
     arg_depthwise_init := None; arg_pointwise_init := None;
     arg_b_init := None; arg_act := None; arg_name := None |}.

(** An input layer. *)
Definition input_layer : LayerRef :=
  {| layer_outputs := placeholder 0;
     layer_all_layers := [placeholder 0];
     layer_all_params := [] |}.

(** [tf.nn.relu] *)
Definition relu : Activation :=
  {| act_name := Some "relu"; act_call := applied "relu" |}.

(** The layer constructed with every argument left out. *)
Definition default_layer (r : Rank) : Instance r :=
  fst (final (SeparableConv.construct (no_args r) root_graph)).

(** The call of the constructor with [act=tf.nn.relu] and nothing else. *)
Definition relu_args (r : Rank) : Args r :=
  {| arg_prev_layer := None; arg_n_filter := None;
     arg_filter_size := None; arg_strides := None;
     arg_padding := None; arg_data_format := None;
     arg_dilation_rate := None; arg_depth_multiplier := None;
     arg_depthwise_init := None; arg_pointwise_init := None;
     arg_b_init := None; arg_act := Some (Some relu); arg_name := None |}.

Definition relu_layer (r : Rank) : Instance r :=
  fst (final (SeparableConv.construct (relu_args r) root_graph)).

(** The call of the constructor with [b_init=None] and the name [nm]. *)
Definition no_bias_args (r : Rank) (nm : string) : Args r :=
  {| arg_prev_layer := None; arg_n_filter := None;
     arg_filter_size := None; arg_strides := None;
     arg_padding := None; arg_data_format := None;
     arg_dilation_rate := None; arg_depth_multiplier := None;
     arg_depthwise_init := None; arg_pointwise_init := None;
     arg_b_init := Some None; arg_act := None; arg_name := Some nm |}.

Definition no_bias_layer (r : Rank) (nm : string) : Instance r :=
  fst (final (SeparableConv.construct (no_bias_args r nm) root_graph)).

(** The call of the constructor with [data_format='NCHW'] and nothing
    else. *)
Definition nchw_args (r : Rank) : Args r :=
  {| arg_prev_layer := None; arg_n_filter := None;
     arg_filter_size := None; arg_strides := None;
     arg_padding := None; arg_data_format := Some "NCHW";
     arg_dilation_rate := None; arg_depth_multiplier := None;
     arg_depthwise_init := None; arg_pointwise_init := None;
     arg_b_init := None; arg_act := None; arg_name := None |}.

(** The graph after the default layer has been applied to the input
    layer. *)
Definition graph_after_default (r : Rank) : Graph :=
  snd (final (SeparableConv.__call__ GLOBAL_VARIABLES input_layer true
                (default_layer r, root_graph))).

(** A call of the constructor with 32 filters, the padding ['SAME'],
    [tf.nn.relu] as activation and the name ['sep']. *)
Definition custom_args (r : Rank) : Args r :=
  {| arg_prev_layer := None; arg_n_filter := Some 32%Z;
     arg_filter_size := None; arg_strides := None;
     arg_padding := Some "SAME"; arg_data_format := None;
     arg_dilation_rate := None; arg_depth_multiplier := None;
     arg_depthwise_init := None; arg_pointwise_init := None;
     arg_b_init := None; arg_act := Some (Some relu);
     arg_name := Some "sep" |}.

(** A callable without a [__name__], such as a [functools.partial]. *)
Definition nameless_activation : Activation :=
  {| act_name := None; act_call := applied "partial" |}.

(** A call of the constructor with a nameless callable as activation. *)
Definition nameless_args (r : Rank) : Args r :=
  {| arg_prev_layer := None; arg_n_filter := None;
     arg_filter_size := None; arg_strides := None;
     arg_padding := None; arg_data_format := None;
     arg_dilation_rate := None; arg_depth_multiplier := None;
     arg_depthwise_init := None; arg_pointwise_init := None;
     arg_b_init := None; arg_act := Some (Some nameless_activation);
     arg_name := None |}.

(** A formatting function to stand for the base class's [_str] in the
    examples: the entries, separated by commas. *)
Definition join_entries (r : Rank) (self : Instance r) (l : list string)
  : string :=
  String.concat ", " l.

(** The call of the constructor with the name [nm] and nothing else. *)
Definition named_args (r : Rank) (nm : string) : Args r :=
  {| arg_prev_layer := None; arg_n_filter := None;
     arg_filter_size := None; arg_strides := None;
     arg_padding := None; arg_data_format := None;
     arg_dilation_rate := None; arg_depth_multiplier := None;
     arg_depthwise_init := None; arg_pointwise_init := None;
     arg_b_init := None; arg_act := None; arg_name := Some nm |}.

Definition named_layer (r : Rank) (nm : string) : Instance r :=
  fst (final (SeparableConv.construct (named_args r nm) root_graph)).

(** The graph after a layer named ['separable_conv1d_1'] has been applied
    to the input layer. *)
Definition graph_after_numbered : Graph :=
  snd (final (SeparableConv.__call__ GLOBAL_VARIABLES input_layer true
                (named_layer Rank1d "separable_conv1d_1", root_graph))).

(** An instance on which only [name] has been set. *)
Definition only_named (r : Rank) (nm : string) : Instance r :=
  {| prev_layer := None; n_filter := None; filter_size := None;
     strides := None; padding := None; data_format := None;
     dilation_rate := None; depth_multiplier := None;
     depthwise_init := None; pointwise_init := None; b_init := None;
     act := None; name := Some nm; inputs := None; outputs := None;
     _local_weights := None; all_layers := []; all_params := [] |}.

(** * Properties *)

(** ** Strings *)

Lemma lower_upper_char (c : ascii) :
  Py.is_lower_letter c = true -> Py.lower_char (Py.upper_char c) = c.
Proof.
  destruct c as [[] [] [] [] [] [] [] []]; vm_compute;
    intros H; try discriminate H; reflexivity.
Qed.

Lemma lower_char_fixes_lower_letter (c : ascii) :
  Py.is_lower_letter c = true -> Py.lower_char c = c.
Proof.
  destruct c as [[] [] [] [] [] [] [] []]; vm_compute;
    intros H; try discriminate H; reflexivity.
Qed.

(** Two case variants of each other have the same lowercase form. *)
Lemma case_variant_lower (s t : string) :
  case_variant s t -> Py.lower s = Py.lower t.
Proof.
  induction 1 as [| c s t _ IH | c s t Hc _ IH]; simpl.
  - reflexivity.
  - now rewrite IH.
  - rewrite IH, (lower_upper_char _ Hc), (lower_char_fixes_lower_letter _ Hc).
    reflexivity.
Qed.

Lemma str_in_two (x a b : string) :
  Py.str_in x [a; b] = true <-> x = a \/ x = b.
Proof.
  unfold Py.str_in; simpl. rewrite orb_false_r, orb_true_iff.
  now rewrite !String.eqb_eq.
Qed.

Lemma str_in_two_false (x a b : string) :
  Py.str_in x [a; b] = false <-> x <> a /\ x <> b.
Proof.
  unfold Py.str_in; simpl. rewrite orb_false_r, orb_false_iff.
  now rewrite !String.eqb_neq.
Qed.

(** Builds the derivation that a literal is a case variant of another. *)
Ltac case_variant_literal :=
  repeat match goal with
         | |- case_variant EmptyString EmptyString => exact cv_nil
         | |- case_variant (String ?c ?s) (String ?c ?t) => apply cv_same
         | |- case_variant (String _ ?s) (String ?d ?t) =>
             refine (@cv_upper d s t eq_refl _)
         end.

(** ** The constructor *)

Section Constructor.

Variable r : Rank.
Variables (prev_layer : option LayerRef) (n_filter : Z).
Variables (filter_size strides dilation_rate : spatial r).
Variables (depth_multiplier : Z).
Variables (depthwise_init pointwise_init b_init : option Initializer).
Variables (act : option Activation) (name : string).

(** The constructor with every argument but the two validated ones
    fixed. *)
Local Abbreviation init padding data_format :=
  (SeparableConv.__init__ prev_layer n_filter filter_size strides
     padding data_format dilation_rate depth_multiplier
     depthwise_init pointwise_init b_init act name).

Local Abbreviation stored padding data_format :=
  (SeparableConv.store_config prev_layer n_filter filter_size strides
     padding data_format dilation_rate depth_multiplier
     depthwise_init pointwise_init b_init act name).

Lemma init_bad_data_format padding data_format s :
  Py.str_in data_format ["channels_last"; "channels_first"] = false ->
  init padding data_format s = (Raise (ValueError data_format_msg), s).
Proof.
  intros H. unfold SeparableConv.__init__. now rewrite H.
Qed.

Lemma init_bad_padding padding data_format s :
  Py.str_in data_format ["channels_last"; "channels_first"] = true ->
  Py.str_in (Py.lower padding) ["same"; "valid"] = false ->
  init padding data_format s = (Raise (ValueError padding_msg), s).
Proof.
  intros H1 H2. unfold SeparableConv.__init__. now rewrite H1, H2.
Qed.

Lemma init_valid padding data_format s :
  Py.str_in data_format ["channels_last"; "channels_first"] = true ->
  Py.str_in (Py.lower padding) ["same"; "valid"] = true ->
  init padding data_format s
  = (Ok tt, (stored padding data_format (fst s), snd s)).
Proof.
  intros H1 H2. unfold SeparableConv.__init__. now rewrite H1, H2.
Qed.

(** C3.  A [data_format] that is neither ["channels_last"] nor
    ["channels_first"] makes the constructor of either class raise the
    [ValueError] of the channel order, with the instance untouched.  For
    each of these two values the check of the channel order passes: the
    constructor goes on to the check of the padding, which alone decides
    its result. *)
Theorem data_format_is_validated padding data_format (s : St r) :
  (data_format <> "channels_last" ->
   data_format <> "channels_first" ->
   init padding data_format s = (Raise (ValueError data_format_msg), s))
  /\ (data_format = "channels_last" \/ data_format = "channels_first" ->
      init padding data_format s
      = if Py.str_in (Py.lower padding) ["same"; "valid"]
        then (Ok tt, (stored padding data_format (fst s), snd s))
        else (Raise (ValueError padding_msg), s)).
Proof.
  split.
  - intros H1 H2. apply init_bad_data_format.
    apply str_in_two_false. now split.
  - intros H. apply str_in_two in H.
    destruct (Py.str_in (Py.lower padding) ["same"; "valid"]) eqn:Hp.
    + now apply init_valid.
    + now apply init_bad_padding.
Qed.

(** C4.  A [padding] whose lowercase form is neither ["same"] nor
    ["valid"] makes the constructor raise a [ValueError]: that of the
    padding when the channel order is accepted, that of the channel
    order, which is checked first, otherwise.  Every case variant of
    ["same"] or ["valid"] passes the check of the padding: the
    constructor then succeeds whenever the channel order is accepted. *)
Theorem padding_is_validated padding data_format (s : St r) :
  (Py.lower padding <> "same" ->
   Py.lower padding <> "valid" ->
   init padding data_format s
   = (Raise
        (ValueError
           (if Py.str_in data_format ["channels_last"; "channels_first"]
            then padding_msg else data_format_msg)), s))
  /\ (case_variant padding "same" \/ case_variant padding "valid" ->
      init padding data_format s
      = if Py.str_in data_format ["channels_last"; "channels_first"]
        then (Ok tt, (stored padding data_format (fst s), snd s))
        else (Raise (ValueError data_format_msg), s)).
Proof.
  split.
  - intros H1 H2.
    assert (Hp : Py.str_in (Py.lower padding) ["same"; "valid"] = false)
      by (apply str_in_two_false; now split).
    destruct (Py.str_in data_format _) eqn:Hd.
    + now apply init_bad_padding.
    + now apply init_bad_data_format.
  - intros H.
    assert (Hp : Py.str_in (Py.lower padding) ["same"; "valid"] = true).
    { apply str_in_two.
      destruct H as [H | H]; apply case_variant_lower in H; auto. }
    destruct (Py.str_in data_format _) eqn:Hd.
    + now apply init_valid.
    + now apply init_bad_data_format.
Qed.

(** C10.  The check of the channel order compares exactly: a case
    variant of ["channels_last"] or of ["channels_first"] other than the
    lowercase value itself makes the constructor raise the [ValueError]
    of the channel order. *)
Theorem data_format_is_case_sensitive padding data_format (s : St r) :
  (case_variant data_format "channels_last"
   /\ data_format <> "channels_last")
  \/ (case_variant data_format "channels_first"
      /\ data_format <> "channels_first") ->
  init padding data_format s = (Raise (ValueError data_format_msg), s).
Proof.
  intros H. apply init_bad_data_format, str_in_two_false.
  destruct H as [[Hv Hne] | [Hv Hne]]; apply case_variant_lower in Hv;
    (split; [| intros ->; try contradiction; discriminate Hv]);
    try assumption; intros ->; discriminate Hv.
Qed.

End Constructor.

(** The theorem on ['NHWC'] for the 1D class and on ['channels_first']
    for the 2D class. *)
Lemma data_format_is_validated_witness :
  SeparableConv1d.__init__ None 100 3%Z 1%Z "valid" "NHWC" 1%Z 1 None None
    (Some zeros_initializer) None "sep" (empty_instance Rank1d, root_graph)
  = (Raise (ValueError data_format_msg), (empty_instance Rank1d, root_graph))
  /\ outcome
       (SeparableConv2d.__init__ None 100 (tuple2 3 3) (tuple2 1 1) "SAME"
          "channels_first" (tuple2 1 1) 1 None None None None "sep"
          (empty_instance Rank2d, root_graph))
     = Ok tt.
Proof.
  split.
  - apply (proj1 (@data_format_is_validated Rank1d None 100%Z 3%Z 1%Z 1%Z
                    1%Z None None (Some zeros_initializer) None "sep"
                    "valid" "NHWC" (empty_instance Rank1d, root_graph)));
      discriminate.
  - unfold SeparableConv1d.__init__, SeparableConv2d.__init__.
    rewrite (proj2 (@data_format_is_validated Rank2d None 100%Z (tuple2 3 3)
                      (tuple2 1 1) (tuple2 1 1) 1%Z None None None None
                      "sep" "SAME" "channels_first"
                      (empty_instance Rank2d, root_graph))
               (or_intror eq_refl)).
    reflexivity.
Defined.

(** The theorem on the paddings ['FULL'], ['Valid'] and ['SAME']. *)
Lemma padding_is_validated_witness :
  SeparableConv1d.__init__ None 100 3%Z 1%Z "FULL" "channels_last" 1%Z 1
    None None None None "sep" (empty_instance Rank1d, root_graph)
  = (Raise (ValueError padding_msg), (empty_instance Rank1d, root_graph))
  /\ outcome
       (SeparableConv1d.__init__ None 100 3%Z 1%Z "Valid" "channels_last"
          1%Z 1 None None None None "sep"
          (empty_instance Rank1d, root_graph))
     = Ok tt
  /\ outcome
       (SeparableConv2d.__init__ None 100 (single 3) (single 1) "SAME"
          "channels_last" (single 1) 1 None None None None "sep"
          (empty_instance Rank2d, root_graph))
     = Ok tt.
Proof.
  split; [| split].
  - apply (proj1 (@padding_is_validated Rank1d None 100%Z 3%Z 1%Z 1%Z 1%Z
                    None None None None "sep" "FULL" "channels_last"
                    (empty_instance Rank1d, root_graph)));
      discriminate.
  - unfold SeparableConv1d.__init__, SeparableConv2d.__init__.
    rewrite (proj2 (@padding_is_validated Rank1d None 100%Z 3%Z 1%Z 1%Z 1%Z
                      None None None None "sep" "Valid" "channels_last"
                      (empty_instance Rank1d, root_graph))).
    + reflexivity.
    + right. case_variant_literal.
  - unfold SeparableConv1d.__init__, SeparableConv2d.__init__.
    rewrite (proj2 (@padding_is_validated Rank2d None 100%Z (single 3)
                      (single 1) (single 1) 1%Z None None None None "sep"
                      "SAME" "channels_last"
                      (empty_instance Rank2d, root_graph))).
    + reflexivity.
    + left. case_variant_literal.
Defined.

(** The theorem on ['Channels_Last'] and ['CHANNELS_FIRST']. *)
Lemma data_format_is_case_sensitive_witness :
  SeparableConv1d.__init__ None 100 3%Z 1%Z "valid" "Channels_Last" 1%Z 1
    None None None None "sep" (empty_instance Rank1d, root_graph)
  = (Raise (ValueError data_format_msg), (empty_instance Rank1d, root_graph))
  /\ SeparableConv2d.__init__ None 100 (tuple2 3 3) (tuple2 1 1) "valid"
       "CHANNELS_FIRST" (tuple2 1 1) 1 None None None None "sep"
       (empty_instance Rank2d, root_graph)
     = (Raise (ValueError data_format_msg),
        (empty_instance Rank2d, root_graph)).
Proof.
  split.
  - apply (@data_format_is_case_sensitive Rank1d None 100%Z 3%Z 1%Z 1%Z 1%Z
             None None None None "sep" "valid" "Channels_Last"
             (empty_instance Rank1d, root_graph)).
    left. split; [case_variant_literal | discriminate].
  - apply (@data_format_is_case_sensitive Rank2d None 100%Z (tuple2 3 3)
             (tuple2 1 1) (tuple2 1 1) 1%Z None None None None "sep"
             "valid" "CHANNELS_FIRST" (empty_instance Rank2d, root_graph)).
    right. split; [case_variant_literal | discriminate].
Defined.

(** The constructor stores each argument it is given, and the default of
    its signature for each argument left out. *)
Lemma construct_stores (r : Rank) (a : Args r) (g : Graph) (s' : St r) :
  SeparableConv.construct a g = (Ok tt, s') ->
  s' = (SeparableConv.store_config
          (keyword (arg_prev_layer a) None)
          (keyword (arg_n_filter a) 100%Z)
          (keyword (arg_filter_size a) (default_filter_size r))
          (keyword (arg_strides a) (default_strides r))
          (keyword (arg_padding a) "valid")
          (keyword (arg_data_format a) "channels_last")
          (keyword (arg_dilation_rate a) (default_dilation_rate r))
          (keyword (arg_depth_multiplier a) 1%Z)
          (keyword (arg_depthwise_init a) None)
          (keyword (arg_pointwise_init a) None)
          (keyword (arg_b_init a) (Some zeros_initializer))
          (keyword (arg_act a) None)
          (keyword (arg_name a) (default_name r))
          (empty_instance r), g).
Proof.
  unfold SeparableConv.construct, SeparableConv.__init__.
  destruct (negb (Py.str_in (keyword (arg_data_format a) _) _));
    [discriminate |].
  destruct (negb (Py.str_in (Py.lower (keyword (arg_padding a) _)) _));
    [discriminate |].
  cbn. now intros [= <-].
Qed.

(** C9.  Called with every argument left out, the constructor of each
    class succeeds and stores the documented defaults: 100 filters, a
    filter size of 3 or (3, 3), strides of 1 or (1, 1), the padding
    ["valid"], the channel order ["channels_last"], a dilation rate of 1
    or (1, 1), a depth multiplier of 1, the zero-fill bias initializer and
    no activation.  More generally a successful construction stores, for
    each of these arguments, the value given or else that default. *)
Theorem constructor_defaults (g : Graph) :
  SeparableConv1d.construct (no_args Rank1d) g
  = (Ok tt,
     ({| prev_layer := Some None; n_filter := Some 100%Z;
         filter_size := Some (3%Z : spatial Rank1d);
         strides := Some (1%Z : spatial Rank1d);
         padding := Some "valid"; data_format := Some "channels_last";
         dilation_rate := Some (1%Z : spatial Rank1d);
         depth_multiplier := Some 1%Z;
         depthwise_init := Some None; pointwise_init := Some None;
         b_init := Some (Some zeros_initializer); act := Some None;
         name := Some "separable_conv1d";
         inputs := None; outputs := None; _local_weights := None;
         all_layers := []; all_params := [] |}, g))
  /\ SeparableConv2d.construct (no_args Rank2d) g
     = (Ok tt,
        ({| prev_layer := Some None; n_filter := Some 100%Z;
            filter_size := Some (tuple2 3 3 : spatial Rank2d);
            strides := Some (tuple2 1 1 : spatial Rank2d);
            padding := Some "valid"; data_format := Some "channels_last";
            dilation_rate := Some (tuple2 1 1 : spatial Rank2d);
            depth_multiplier := Some 1%Z;
            depthwise_init := Some None; pointwise_init := Some None;
            b_init := Some (Some zeros_initializer); act := Some None;
            name := Some "separable_conv2d";
            inputs := None; outputs := None; _local_weights := None;
            all_layers := []; all_params := [] |}, g))
  /\ (forall (r : Rank) (a : Args r) (self : Instance r) (g' : Graph),
        SeparableConv.construct a g = (Ok tt, (self, g')) ->
        n_filter self = Some (keyword (arg_n_filter a) 100%Z)
        /\ filter_size self
           = Some (keyword (arg_filter_size a) (default_filter_size r))
        /\ strides self = Some (keyword (arg_strides a) (default_strides r))
        /\ padding self = Some (keyword (arg_padding a) "valid")
        /\ data_format self
           = Some (keyword (arg_data_format a) "channels_last")
        /\ dilation_rate self
           = Some (keyword (arg_dilation_rate a) (default_dilation_rate r))
        /\ depth_multiplier self
           = Some (keyword (arg_depth_multiplier a) 1%Z)
        /\ b_init self
           = Some (keyword (arg_b_init a) (Some zeros_initializer))
        /\ act self = Some (keyword (arg_act a) None)).
Proof.
  split; [reflexivity | split; [reflexivity |]].
  intros r a self g' H. apply construct_stores in H.
  injection H as -> _. cbn. repeat split.
Qed.

(** The theorem on a call that gives [n_filter], [padding] and [b_init]
    only. *)
Lemma constructor_defaults_witness :
  let a : Args Rank1d :=
    {| arg_prev_layer := None; arg_n_filter := Some 32%Z;
       arg_filter_size := None; arg_strides := None;
       arg_padding := Some "SAME"; arg_data_format := None;
       arg_dilation_rate := None; arg_depth_multiplier := None;
       arg_depthwise_init := None; arg_pointwise_init := None;
       arg_b_init := Some None; arg_act := None; arg_name := None |} in
  exists self,
    SeparableConv.construct a root_graph = (Ok tt, (self, root_graph))
    /\ n_filter self = Some 32%Z
    /\ filter_size self = Some 3%Z
    /\ padding self = Some "SAME"
    /\ b_init self = Some None.
Proof.
  intros a. eexists. split; [reflexivity |].
  pose proof (proj2 (proj2 (constructor_defaults root_graph))
                Rank1d a _ _ eq_refl) as H.
  cbn in H. intuition.
Defined.

(** ** The monad *)

Lemma bind_ok {S A B} (m : M S A) (f : A -> M S B) (s s' : S) (a : A) :
  m s = (Ok a, s') -> bind m f s = f a s'.
Proof. intros H. unfold bind. now rewrite H. Qed.

Lemma bind_raise {S A B} (m : M S A) (f : A -> M S B) (s s' : S) (e : exn) :
  m s = (Raise e, s') -> bind m f s = (Raise e, s').
Proof. intros H. unfold bind. now rewrite H. Qed.

(** A successful sequence: its first part succeeded, and so did the
    rest. *)
Lemma bind_ok_inv {S A B} (m : M S A) (f : A -> M S B) (s s' : S) (b : B) :
  bind m f s = (Ok b, s') ->
  exists a s1, m s = (Ok a, s1) /\ f a s1 = (Ok b, s').
Proof.
  unfold bind. destruct (m s) as [[a | e] s1]; [eauto | discriminate].
Qed.

(** ** The description *)

(** One guarded [append]: the entry of the attribute when it is set,
    nothing when it is not. *)
Lemma try_append_attr {r A} (acc : list string) (attr : string)
    (proj : Instance r -> option A) (fmt : A -> string) (s : St r) :
  try_append acc (let* v := getattr attr proj in ret (fmt v)) s
  = (Ok (acc ++ entry (proj (fst s)) fmt)%list, s).
Proof.
  unfold try_append, bind, getattr, ret, entry.
  destruct (proj (fst s)); [reflexivity | now rewrite app_nil_r].
Qed.

Lemma try_append_act {r} (acc : list string) (s : St r) :
  try_append acc
    (let* a := getattr "act" (@act r) in
     match a with
     | Some f => let* nm := callable_name f in ret ("act: " ++ nm)
     | None => ret "No Activation"
     end) s
  = (Ok (acc ++ act_entry (act (fst s)))%list, s).
Proof.
  unfold try_append, bind, getattr, ret, act_entry, entry, callable_name,
    raise.
  destruct (act (fst s)) as [[f |] |];
    [destruct (act_name f) | |]; cbn; now rewrite ?app_nil_r.
Qed.

Section Describe.

Variable Layer__str : forall r, Instance r -> list string -> string.

(** C8.  On every instance, whichever of its attributes are set,
    [__str__] returns without raising: each attribute that is not set
    raises an [AttributeError] that is caught, and leaves no entry.  The
    list handed to the base class's [_str] is the summary of the
    attributes that are set.  This covers the instance that has just been
    constructed and not yet applied, whose [inputs] and [outputs] are not
    set. *)
Theorem describe_never_raises (r : Rank) (s : St r) :
  SeparableConv.__str__ Layer__str s
  = (Ok (Layer__str (fst s) (summary_spec (fst s))), s).
Proof.
  unfold SeparableConv.__str__, summary_spec.
  do 6 (erewrite bind_ok by apply try_append_attr).
  erewrite bind_ok by apply try_append_act.
  cbn [app]. now rewrite <- !app_assoc.
Qed.

End Describe.

Example summary_default_1d :
  summary_spec (default_layer Rank1d)
  = ["n_filter: 100"; "filter_size: 3"; "strides: 1"; "padding: valid";
     "dilation_rate: 1"; "depth_multiplier: 1"; "No Activation"].
Proof. vm_compute. reflexivity. Qed.

Example summary_default_2d :
  summary_spec (default_layer Rank2d)
  = ["n_filter: 100"; "filter_size: (3, 3)"; "stride: (1, 1)";
     "padding: valid"; "dilation_rate: (1, 1)"; "depth_multiplier: 1";
     "No Activation"].
Proof. vm_compute. reflexivity. Qed.

Example summary_relu_1d :
  summary_spec (relu_layer Rank1d)
  = ["n_filter: 100"; "filter_size: 3"; "strides: 1"; "padding: valid";
     "dilation_rate: 1"; "depth_multiplier: 1"; "act: relu"].
Proof. vm_compute. reflexivity. Qed.

Example summary_of_fresh_object :
  summary_spec (empty_instance Rank2d) = [].
Proof. reflexivity. Qed.

(** ** Inversion of the steps of a method *)

Lemma getattr_ok_inv {r A} (attr : string) (proj : Instance r -> option A)
    (s s' : St r) (v : A) :
  getattr attr proj s = (Ok v, s') -> proj (fst s) = Some v /\ s' = s.
Proof.
  unfold getattr. destruct (proj (fst s)); intros [= <- <-]; auto.
Qed.

Lemma update_self_inv {r} (f : Instance r -> Instance r) (s s' : St r) x :
  update_self f s = (Ok x, s') -> s' = (f (fst s), snd s).
Proof. unfold update_self. now intros [= _ <-]. Qed.

Lemma on_graph_ok_inv {r A} (m : M Graph A) (s s' : St r) (a : A) :
  on_graph m s = (Ok a, s') ->
  exists g', m (snd s) = (Ok a, g') /\ s' = (fst s, g').
Proof.
  unfold on_graph. destruct (m (snd s)) as [x g']. intros [= -> <-]. eauto.
Qed.

Lemma variable_scope_ok_inv {r A} (nm : string) (body : string -> Method r A)
    (s s' : St r) (a : A) :
  variable_scope nm body s = (Ok a, s') ->
  exists s1,
    body (scope_join (scope_name (snd s)) nm)
      (fst s, set_scope (scope_join (scope_name (snd s)) nm) (snd s))
    = (Ok a, s1)
    /\ s' = (fst s1, set_scope (scope_name (snd s)) (snd s1)).
Proof.
  unfold variable_scope. cbv zeta.
  destruct (body _ _) as [x s1]. intros [= -> <-]. eauto.
Qed.

Lemma ret_ok_inv {S A} (a b : A) (s s' : S) :
  ret a s = (Ok b, s') -> b = a /\ s' = s.
Proof. unfold ret. now intros [= <- <-]. Qed.

(** Takes a successful run apart, step by step. *)
Ltac invert_run :=
  repeat match goal with
         | H : bind _ _ _ = (Ok _, _) |- _ =>
             apply bind_ok_inv in H; destruct H as (? & ? & ? & H)
         | H : getattr _ _ _ = (Ok _, _) |- _ =>
             apply getattr_ok_inv in H; destruct H as [? ->]
         | H : update_self _ _ = (Ok _, _) |- _ =>
             apply update_self_inv in H; subst
         | H : on_graph _ _ = (Ok _, _) |- _ =>
             apply on_graph_ok_inv in H; destruct H as (? & H & ->)
         | H : variable_scope _ _ _ = (Ok _, _) |- _ =>
             apply variable_scope_ok_inv in H; destruct H as (? & H & ->)
         | H : ret _ _ = (Ok _, _) |- _ =>
             apply ret_ok_inv in H; destruct H as [-> ->]
         end.

(** ** The application *)

(** What a successful application has read, called and stored. *)
Lemma call_body_inv key r prev is_train (self : Instance r) g s' :
  SeparableConv.__call___body key prev is_train (self, g) = (Ok tt, s') ->
  exists nm nf fs st pad df dil dm dwi pwi bi a out g1,
    name self = Some nm /\ n_filter self = Some nf
    /\ filter_size self = Some fs /\ strides self = Some st
    /\ padding self = Some pad /\ data_format self = Some df
    /\ dilation_rate self = Some dil /\ depth_multiplier self = Some dm
    /\ depthwise_init self = Some dwi /\ pointwise_init self = Some pwi
    /\ b_init self = Some bi /\ act self = Some a
    /\ separable_conv
         (call_kwargs (layer_outputs prev) nf fs st pad df dil dm dwi pwi bi
            is_train (scope_reuse g))
         (set_scope (scope_join (scope_name g) nm) g)
       = (Ok out, g1)
    /\ s' = (applied_instance self prev out
               (collected key (scope_join (scope_name g) nm) g1),
             set_scope (scope_name g) g1).
Proof.
  intros H. unfold SeparableConv.__call___body in H.
  unfold Layer.__call__, Layer._apply_activation, Layer._add_layers,
    Layer._add_params, get_variable_scope_reuse, get_collection in H.
  invert_run. cbn in *.
  repeat match goal with
         | H : (_, _) = (_, _) |- _ => injection H as ? ?; subst
         | H : Some _ = Some _ |- _ => injection H as ?; subst
         end.
  match goal with
  | H1 : b_init self = Some ?x, H2 : b_init self = Some ?y |- _ =>
      rewrite H1 in H2; injection H2 as <-
  end.
  do 14 eexists. repeat (split; [eassumption |]). reflexivity.
Qed.

(** ** The variables of the graph *)

(** A successful [get_variable] keeps the scope and the operations, and
    either binds an existing variable, under reuse, or appends a new
    one. *)
Lemma get_variable_ok_inv scope ro trainable reuse init g v g' :
  get_variable scope ro trainable reuse init g = (Ok v, g') ->
  scope_name g' = scope_name g /\ scope_reuse g' = scope_reuse g
  /\ operations g' = operations g
  /\ ((reuse = true /\ find (same_var scope ro) (variables g) = Some v
       /\ g' = g)
      \/ (reuse = false /\ find (same_var scope ro) (variables g) = None
          /\ v = {| var_scope := scope; var_role := ro;
                    var_trainable := trainable; var_initializer := init |}
          /\ variables g' = (variables g ++ [v])%list)).
Proof.
  unfold get_variable.
  destruct (find _ _) as [v0 |], reuse; intros [= <- <-];
    cbn; intuition.
Qed.

(** A successful run of the primitive: the variables it is bound to and
    the operation it adds. *)
Lemma separable_conv_ok_inv r (kw : PrimArgs r) g out g1 :
  separable_conv kw g = (Ok out, g1) ->
  exists dw pw bs ga gb gc,
    get_variable (scope_join (scope_name g) (kw_name kw)) depthwise_kernel
      (kw_trainable kw) (kw_reuse kw || scope_reuse g)
      (kw_depthwise_initializer kw) g = (Ok dw, ga)
    /\ get_variable (scope_join (scope_name g) (kw_name kw)) pointwise_kernel
         (kw_trainable kw) (kw_reuse kw || scope_reuse g)
         (kw_pointwise_initializer kw) ga = (Ok pw, gb)
    /\ (if kw_use_bias kw
        then exists b,
            get_variable (scope_join (scope_name g) (kw_name kw)) bias
              (kw_trainable kw) (kw_reuse kw || scope_reuse g)
              (kw_bias_initializer kw) gb = (Ok b, gc)
            /\ bs = [b]
        else gc = gb /\ bs = [])
    /\ out = match kw_activation kw with
             | Some f => act_call f (op_output (List.length (operations gc)))
             | None => op_output (List.length (operations gc))
             end
    /\ scope_name g1 = scope_name gc
    /\ scope_reuse g1 = scope_reuse gc
    /\ variables g1 = variables gc
    /\ operations g1
       = (operations gc
          ++ [{| op_rank := r; op_kwargs := kw;
                 op_weights := dw :: pw :: bs |}])%list.
Proof.
  unfold separable_conv. cbv zeta. intros H.
  apply bind_ok_inv in H. destruct H as (dw & ga & Hdw & H).
  apply bind_ok_inv in H. destruct H as (pw & gb & Hpw & H).
  apply bind_ok_inv in H. destruct H as (bs & gc & Hbs & H).
  apply bind_ok_inv in H. destruct H as (raw & gd & Hop & H).
  apply ret_ok_inv in H. destruct H as [-> ->].
  unfold add_operation in Hop. injection Hop as <- <-.
  exists dw, pw, bs, ga, gb, gc. repeat (split; [eassumption |]).
  split; [| cbn; auto].
  destruct (kw_use_bias kw).
  - apply bind_ok_inv in Hbs. destruct Hbs as (b & gc' & Hb & Hr).
    apply ret_ok_inv in Hr. destruct Hr as [-> ->]. eauto.
  - apply ret_ok_inv in Hbs. destruct Hbs as [-> ->]. auto.
Qed.

(** The primitive adds one operation, whose output is a new node. *)
Lemma separable_conv_operation r (kw : PrimArgs r) g out g1 :
  separable_conv kw g = (Ok out, g1) ->
  kw_activation kw = None ->
  exists ws,
    operations g1
    = (operations g
       ++ [{| op_rank := r; op_kwargs := kw; op_weights := ws |}])%list
    /\ out = op_output (List.length (operations g)).
Proof.
  intros H Hact. apply separable_conv_ok_inv in H.
  destruct H as (dw & pw & bs & ga & gb & gc & Hdw & Hpw & Hbs & Hout
                 & _ & _ & _ & Hops).
  apply get_variable_ok_inv in Hdw. destruct Hdw as (_ & _ & Ea & _).
  apply get_variable_ok_inv in Hpw. destruct Hpw as (_ & _ & Eb & _).
  assert (Ec : operations gc = operations gb).
  { destruct (kw_use_bias kw).
    - destruct Hbs as (b & Hb & _).
      apply get_variable_ok_inv in Hb. now destruct Hb as (_ & _ & E & _).
    - now destruct Hbs as [-> _]. }
  rewrite Hact in Hout. rewrite Hops, Hout, Ec, Eb, Ea. eauto.
Qed.

(** ** What an application returns and registers *)

Lemma call_inv key r prev is_train (s s' : St r) (ret : Instance r) :
  SeparableConv.__call__ key prev is_train s = (Ok ret, s') ->
  SeparableConv.__call___body key prev is_train s = (Ok tt, s')
  /\ ret = fst s'.
Proof.
  unfold SeparableConv.__call__, force_return_self. intros H.
  apply bind_ok_inv in H. destruct H as ([] & s1 & Hbody & H).
  injection H as <- <-. auto.
Qed.

(** The tensor that an application registers as the output of the layer
    is the output node of the operation it has just added, whatever the
    activation of the layer. *)
Lemma call_registers_raw_output key r prev is_train (self : Instance r) g
    ret s' :
  SeparableConv.__call__ key prev is_train (self, g) = (Ok ret, s') ->
  outputs ret = Some (op_output (List.length (operations g)))
  /\ all_layers ret
     = (layer_all_layers prev
        ++ [op_output (List.length (operations g))])%list.
Proof.
  intros H. apply call_inv in H. destruct H as [H ->].
  apply call_body_inv in H.
  destruct H as (nm & nf & fs & st & pad & df & dil & dm & dwi & pwi & bi
                 & a & out & g1 & _ & _ & _ & _ & _ & _ & _ & _ & _ & _ & _
                 & _ & Hprim & ->).
  apply separable_conv_operation in Hprim; [| reflexivity].
  destruct Hprim as (ws & _ & ->). cbn. auto.
Qed.

(** C1, on the code.  A layer of either class constructed with
    [act=tf.nn.relu] and applied to an input layer registers, as its
    output, the raw output of the primitive: the value that
    [_apply_activation] returns is not assigned, and the activated tensor
    is another tensor. *)
Theorem activation_result_is_dropped :
  (let run :=
     SeparableConv1d.__call__ GLOBAL_VARIABLES input_layer true
       (relu_layer Rank1d, root_graph) in
   act (relu_layer Rank1d) = Some (Some relu)
   /\ outcome run = Ok (fst (final run))
   /\ outputs (fst (final run)) = Some (op_output 0)
   /\ all_layers (fst (final run)) = [placeholder 0; op_output 0]
   /\ act_call relu (op_output 0) <> op_output 0)
  /\ (let run :=
        SeparableConv2d.__call__ GLOBAL_VARIABLES input_layer true
          (relu_layer Rank2d, root_graph) in
      act (relu_layer Rank2d) = Some (Some relu)
      /\ outcome run = Ok (fst (final run))
      /\ outputs (fst (final run)) = Some (op_output 0)
      /\ all_layers (fst (final run)) = [placeholder 0; op_output 0]
      /\ act_call relu (op_output 0) <> op_output 0).
Proof.
  split; cbv zeta;
    (split; [vm_compute; reflexivity |]);
    (split; [vm_compute; reflexivity |]);
    (split; [vm_compute; reflexivity |]);
    (split; [vm_compute; reflexivity | discriminate]).
Qed.

(** Without an activation the registered output is the raw output too. *)
Example no_activation_passes_through :
  act (default_layer Rank1d) = Some None
  /\ outputs
       (fst (final (SeparableConv1d.__call__ GLOBAL_VARIABLES input_layer
                      true (default_layer Rank1d, root_graph))))
     = Some (op_output 0).
Proof. split; vm_compute; reflexivity. Qed.

(** C5.  A successful application invokes the primitive once, and the
    operation it adds to the graph carries [use_bias = False] when the
    bias initializer of the layer is [None] and [use_bias = True] for any
    other bias initializer, which is passed on as it is. *)
Theorem use_bias_follows_b_init key r prev is_train (self : Instance r) g
    ret s' :
  SeparableConv.__call__ key prev is_train (self, g) = (Ok ret, s') ->
  exists bi kw ws,
    b_init self = Some bi
    /\ operations (snd s')
       = (operations g
          ++ [{| op_rank := r; op_kwargs := kw; op_weights := ws |}])%list
    /\ kw_use_bias kw = match bi with Some _ => true | None => false end
    /\ kw_bias_initializer kw = bi.
Proof.
  intros H. apply call_inv in H. destruct H as [H _].
  apply call_body_inv in H.
  destruct H as (nm & nf & fs & st & pad & df & dil & dm & dwi & pwi & bi
                 & a & out & g1 & _ & _ & _ & _ & _ & _ & _ & _ & _ & _ & Hb
                 & _ & Hprim & ->).
  apply separable_conv_operation in Hprim; [| reflexivity].
  destruct Hprim as (ws & Hops & _).
  exists bi. eexists. exists ws. cbn [snd set_scope operations].
  rewrite Hops. cbn. auto.
Qed.

Local Abbreviation run_no_bias :=
  (SeparableConv.__call__ GLOBAL_VARIABLES input_layer true
     (no_bias_layer Rank1d "sep", root_graph)).

Local Abbreviation run_default1d :=
  (SeparableConv.__call__ GLOBAL_VARIABLES input_layer true
     (default_layer Rank1d, root_graph)).

Local Abbreviation run_default2d :=
  (SeparableConv.__call__ TRAINABLE_VARIABLES input_layer false
     (default_layer Rank2d, root_graph)).

(** The theorem on a layer without bias and on the default layer. *)
Lemma use_bias_follows_b_init_witness :
  (exists kw ws,
      operations (snd (final run_no_bias))
      = (operations root_graph
         ++ [{| op_rank := Rank1d; op_kwargs := kw; op_weights := ws |}])%list
      /\ kw_use_bias kw = false)
  /\ (exists kw ws,
         operations (snd (final run_default2d))
         = (operations root_graph
            ++ [{| op_rank := Rank2d; op_kwargs := kw;
                   op_weights := ws |}])%list
         /\ kw_use_bias kw = true).
Proof.
  split.
  - assert (Hrun : run_no_bias
                   = (Ok (fst (final run_no_bias)), final run_no_bias))
      by (vm_compute; reflexivity).
    destruct (@use_bias_follows_b_init _ _ _ _ _ _ _ _ Hrun)
      as (bi & kw & ws & Hb & Hops & Hu & _).
    vm_compute in Hb. injection Hb as <-.
    exists kw, ws. split; [exact Hops | exact Hu].
  - assert (Hrun : run_default2d
                   = (Ok (fst (final run_default2d)), final run_default2d))
      by (vm_compute; reflexivity).
    destruct (@use_bias_follows_b_init _ _ _ _ _ _ _ _ Hrun)
      as (bi & kw & ws & Hb & Hops & Hu & _).
    vm_compute in Hb. injection Hb as <-.
    exists kw, ws. split; [exact Hops | exact Hu].
Defined.

(** ** The exceptions a method can raise *)

Section RaisesOnly.

Variable P : exn -> Prop.

Lemma ro_ret {S A} (a : A) : raises_only P (@ret S A a).
Proof. intros s e s' H. discriminate H. Qed.

Lemma ro_raise {S A} (e : exn) : P e -> raises_only P (@raise S A e).
Proof. intros He s e' s' [= <- _]. exact He. Qed.

Lemma ro_bind {S A B} (m : M S A) (f : A -> M S B) :
  raises_only P m -> (forall a, raises_only P (f a)) ->
  raises_only P (bind m f).
Proof.
  intros Hm Hf s e s' H. unfold bind in H.
  destruct (m s) as [[a | e0] s1] eqn:E.
  - exact (Hf a s1 e s' H).
  - injection H as <- <-. exact (Hm s e0 s1 E).
Qed.

Lemma ro_getattr {r A} (attr : string) (proj : Instance r -> option A) :
  P (AttributeError attr) -> raises_only P (getattr attr proj).
Proof.
  intros Ha s e s' H. unfold getattr in H.
  destruct (proj (fst s)); [discriminate H |].
  injection H as <- _. exact Ha.
Qed.

Lemma ro_update_self {r} (f : Instance r -> Instance r) :
  raises_only P (update_self f).
Proof. intros s e s' H. discriminate H. Qed.

Lemma ro_on_graph {r A} (m : M Graph A) :
  raises_only P m -> raises_only P (@on_graph r A m).
Proof.
  intros Hm s e s' H. unfold on_graph in H.
  destruct (m (snd s)) as [x g'] eqn:E. injection H as -> _.
  exact (Hm _ _ _ E).
Qed.

Lemma ro_variable_scope {r A} (nm : string) (body : string -> Method r A) :
  (forall vs, raises_only P (body vs)) ->
  raises_only P (variable_scope nm body).
Proof.
  intros Hb s e s' H. unfold variable_scope in H. cbv zeta in H.
  destruct (body _ _) as [x s1] eqn:E. injection H as -> _.
  exact (Hb _ _ _ _ E).
Qed.

Lemma ro_get_variable scope ro trainable reuse init :
  P (ValueError variable_exists_msg) ->
  P (ValueError variable_missing_msg) ->
  raises_only P (get_variable scope ro trainable reuse init).
Proof.
  intros H1 H2 g e g' H. unfold get_variable in H.
  destruct (find _ _), reuse; try discriminate H;
    injection H as <- _; assumption.
Qed.

Lemma ro_separable_conv r (kw : PrimArgs r) :
  P (ValueError variable_exists_msg) ->
  P (ValueError variable_missing_msg) ->
  raises_only P (separable_conv kw).
Proof.
  intros H1 H2 g e g' H. unfold separable_conv in H. cbv zeta in H.
  refine ((_ : raises_only P _) g e g' H).
  repeat (apply ro_bind; [auto using ro_get_variable | intros]).
  - destruct (kw_use_bias kw); [| apply ro_ret].
    apply ro_bind; [auto using ro_get_variable | intros; apply ro_ret].
  - intros s1 e1 s1' H0. discriminate H0.
  - apply ro_ret.
Qed.

Lemma ro_call_body key r prev is_train :
  (forall attr, P (AttributeError attr)) ->
  P (ValueError variable_exists_msg) ->
  P (ValueError variable_missing_msg) ->
  raises_only P (@SeparableConv.__call___body key r prev is_train).
Proof.
  intros Ha H1 H2. unfold SeparableConv.__call___body.
  assert (Hg : forall A attr (proj : Instance r -> option A),
             raises_only P (getattr attr proj))
    by (intros; now apply ro_getattr).
  assert (Hu : forall f : Instance r -> Instance r,
             raises_only P (update_self f))
    by (intros; apply ro_update_self).
  apply ro_bind; [apply Hu | intros _].
  apply ro_bind;
    [apply ro_on_graph; intros s e s' H; discriminate H | intros reuse].
  apply ro_bind; [apply Hg | intros nm].
  apply ro_bind.
  - apply ro_variable_scope. intros vs.
    do 12 (apply ro_bind; [apply Hg | intros]).
    apply ro_bind;
      [apply ro_on_graph; now apply ro_separable_conv | intros out].
    apply ro_bind; [apply Hu | intros _].
    apply ro_bind; [apply Hg | intros o].
    apply ro_bind.
    + unfold Layer._apply_activation.
      apply ro_bind; [apply Hg | intros; apply ro_ret].
    + intros _.
      apply ro_bind; [| intros; apply Hu].
      apply ro_on_graph. intros s e s' H. discriminate H.
  - intros _.
    apply ro_bind; [apply Hg | intros o].
    apply ro_bind; [apply Hu | intros _].
    apply ro_bind; [apply Hg | intros ws]. apply Hu.
Qed.

End RaisesOnly.

Lemma not_validation_error_attribute attr :
  ~ validation_error (AttributeError attr).
Proof. intros [H | H]; discriminate H. Qed.

Lemma not_validation_error_exists :
  ~ validation_error (ValueError variable_exists_msg).
Proof. intros [H | H]; discriminate H. Qed.

Lemma not_validation_error_missing :
  ~ validation_error (ValueError variable_missing_msg).
Proof. intros [H | H]; discriminate H. Qed.

(** C6.  The two validation errors belong to construction.  A
    configuration with an invalid channel order or an invalid padding
    makes the constructor raise one of them at once, leaving the instance
    as it was; a construction that raises has raised one of them and has
    stored no attribute on the fresh instance.  An application never
    raises either of them, on any instance and any graph. *)
Theorem validation_happens_at_construction :
  (forall r prev nf fs st pad df dil dm dwi pwi bi a nm (s : St r),
      (df <> "channels_last" /\ df <> "channels_first")
      \/ (Py.lower pad <> "same" /\ Py.lower pad <> "valid") ->
      exists e,
        validation_error e
        /\ SeparableConv.__init__ prev nf fs st pad df dil dm dwi pwi bi a nm
             s = (Raise e, s))
  /\ (forall r (a : Args r) g e s',
         SeparableConv.construct a g = (Raise e, s') ->
         validation_error e /\ s' = (empty_instance r, g))
  /\ (forall key r prev is_train (s : St r) e s',
         SeparableConv.__call__ key prev is_train s = (Raise e, s') ->
         ~ validation_error e).
Proof.
  split; [| split].
  - intros r prev nf fs st pad df dil dm dwi pwi bi a nm s H.
    unfold SeparableConv.__init__, validation_error.
    destruct (Py.str_in df _) eqn:Hd; cbn [negb].
    + destruct H as [H | H];
        [apply str_in_two_false in H; congruence |].
      apply str_in_two_false in H. rewrite H. cbn [negb]. eauto.
    + eauto.
  - intros r a g e s'.
    unfold SeparableConv.construct, SeparableConv.__init__, validation_error.
    destruct (negb (Py.str_in (keyword (arg_data_format a) _) _));
      [intros [= <- <-]; auto |].
    destruct (negb (Py.str_in (Py.lower (keyword (arg_padding a) _)) _));
      [intros [= <- <-]; auto |].
    discriminate.
  - intros key r prev is_train s e s' H.
    unfold SeparableConv.__call__, force_return_self in H.
    refine ((_ : raises_only (fun e => ~ validation_error e) _) s e s' H).
    apply ro_bind.
    + apply ro_call_body;
        auto using not_validation_error_attribute,
          not_validation_error_exists, not_validation_error_missing.
    + intros _ s0 e0 s0' H0. discriminate H0.
Qed.

Local Abbreviation run_twice :=
  (SeparableConv.__call__ GLOBAL_VARIABLES input_layer true
     (default_layer Rank1d, graph_after_default Rank1d)).

(** The theorem on two invalid channel orders, and on a second
    application of the default layer, which the framework rejects. *)
Lemma validation_happens_at_construction_witness :
  (exists e,
      validation_error e
      /\ SeparableConv1d.__init__ None 100 3%Z 1%Z "same" "NHWC" 1%Z 1
           None None None None "sep" (empty_instance Rank1d, root_graph)
         = (Raise e, (empty_instance Rank1d, root_graph)))
  /\ (validation_error (ValueError data_format_msg)
      /\ final (SeparableConv.construct (nchw_args Rank2d) root_graph)
         = (empty_instance Rank2d, root_graph))
  /\ (outcome run_twice = Raise (ValueError variable_exists_msg)
      /\ ~ validation_error (ValueError variable_exists_msg)).
Proof.
  split; [| split].
  - apply (proj1 validation_happens_at_construction Rank1d).
    left. split; discriminate.
  - assert (Hrun : SeparableConv.construct (nchw_args Rank2d) root_graph
                   = (Raise (ValueError data_format_msg),
                      final (SeparableConv.construct (nchw_args Rank2d)
                               root_graph)))
      by (vm_compute; reflexivity).
    exact (proj1 (proj2 validation_happens_at_construction) Rank2d
             (nchw_args Rank2d) root_graph _ _ Hrun).
  - assert (Hrun : run_twice
                   = (Raise (ValueError variable_exists_msg),
                      final run_twice))
      by (vm_compute; reflexivity).
    split; [now rewrite Hrun |].
    exact (proj2 (proj2 validation_happens_at_construction)
             GLOBAL_VARIABLES Rank1d input_layer true
             (default_layer Rank1d, graph_after_default Rank1d) _ _ Hrun).
Defined.

(** ** The parameters an application registers *)

(** C2, as stated, fails.  The default layer, which has a bias, is applied
    first.  Under a reuse context a layer of the same name constructed
    with [b_init=None] is applied then: it shares the two kernels, and the
    collection of its scope, which it registers, holds the bias too. *)
Lemma reuse_registers_foreign_bias :
  ~ registers_exactly_own_parameters GLOBAL_VARIABLES input_layer true
      (no_bias_layer Rank1d "separable_conv1d")
      (reusing (graph_after_default Rank1d))
  /\ ~ registers_exactly_own_parameters TRAINABLE_VARIABLES input_layer true
         (no_bias_layer Rank2d "separable_conv2d")
         (reusing (graph_after_default Rank2d)).
Proof.
  split; intros H.
  - pose (run := SeparableConv.__call__ GLOBAL_VARIABLES input_layer true
                   (no_bias_layer Rank1d "separable_conv1d",
                    reusing (graph_after_default Rank1d))).
    assert (Hrun : run = (Ok (fst (final run)), final run))
      by (vm_compute; reflexivity).
    destruct (H (fst (final run)) (final run) "separable_conv1d" None Hrun)
      as (ws & Hws & Hiff); [vm_compute; reflexivity .. |].
    vm_compute in Hws. injection Hws as <-.
    destruct (proj1 (Hiff {| var_scope := "separable_conv1d/separable_conv1d";
                             var_role := bias; var_trainable := true;
                             var_initializer := Some zeros_initializer |}))
      as [_ [_ [Hr | [Hr | [_ Hb]]]]];
      [cbn; auto | discriminate Hr | discriminate Hr | now apply Hb].
  - pose (run := SeparableConv.__call__ TRAINABLE_VARIABLES input_layer true
                   (no_bias_layer Rank2d "separable_conv2d",
                    reusing (graph_after_default Rank2d))).
    assert (Hrun : run = (Ok (fst (final run)), final run))
      by (vm_compute; reflexivity).
    destruct (H (fst (final run)) (final run) "separable_conv2d" None Hrun)
      as (ws & Hws & Hiff); [vm_compute; reflexivity .. |].
    vm_compute in Hws. injection Hws as <-.
    destruct (proj1 (Hiff {| var_scope := "separable_conv2d/separable_conv2d";
                             var_role := bias; var_trainable := true;
                             var_initializer := Some zeros_initializer |}))
      as [_ [_ [Hr | [Hr | [_ Hb]]]]];
      [cbn; auto | discriminate Hr | discriminate Hr | now apply Hb].
Qed.

Lemma prefix_append (s t : string) : prefix s (s ++ t) = true.
Proof.
  induction s as [| c s IH]; cbn; [now destruct t |].
  destruct (ascii_dec c c); [exact IH | congruence].
Qed.

Lemma append_assoc (s t u : string) : (s ++ t) ++ u = s ++ (t ++ u).
Proof. induction s as [| c s IH]; cbn; [| rewrite IH]; reflexivity. Qed.

(** A variable of the primitive of a layer lies in the scope of the
    layer. *)
Lemma in_scope_primitive vs p ro trainable init :
  in_scope vs {| var_scope := scope_join vs p; var_role := ro;
                 var_trainable := trainable; var_initializer := init |}
  = true.
Proof.
  unfold in_scope, var_name, scope_join. cbn.
  destruct (String.eqb_spec vs "") as [-> | _];
    [now destruct (p ++ _) |].
  rewrite append_assoc. apply prefix_append.
Qed.

Lemma in_scope_same_var vs p ro v :
  same_var (scope_join vs p) ro v = true -> in_scope vs v = true.
Proof.
  unfold same_var. rewrite andb_true_iff, String.eqb_eq.
  intros [Hs _]. destruct v as [sc ro' tr init]. cbn in Hs. subst sc.
  apply in_scope_primitive.
Qed.

Lemma find_fresh_scope vs p ro g :
  fresh_scope vs g -> find (same_var (scope_join vs p) ro) (variables g) = None.
Proof.
  intros Hf. destruct (find _ _) as [v |] eqn:E; [| reflexivity].
  apply find_some in E. destruct E as [Hin Hsame].
  apply in_scope_same_var in Hsame. rewrite (Hf v Hin) in Hsame.
  discriminate Hsame.
Qed.

Lemma find_app_none {A} (f : A -> bool) (l1 l2 : list A) :
  find f l1 = None -> find f l2 = None -> find f (l1 ++ l2)%list = None.
Proof.
  intros H1 H2. induction l1 as [| a l1 IH]; cbn in *; [exact H2 |].
  destruct (f a); [discriminate H1 | auto].
Qed.

(** [get_variable] on a graph whose variables are [l0], none of which is
    the one asked for, followed by variables [l1] of other roles: the
    variable is created. *)
Lemma get_variable_creates scope ro trainable reuse init g v g' l0 l1 :
  variables g = (l0 ++ l1)%list ->
  find (same_var scope ro) l0 = None ->
  find (same_var scope ro) l1 = None ->
  get_variable scope ro trainable reuse init g = (Ok v, g') ->
  reuse = false
  /\ v = {| var_scope := scope; var_role := ro;
            var_trainable := trainable; var_initializer := init |}
  /\ variables g' = (l0 ++ (l1 ++ [v]))%list.
Proof.
  intros Hv H0 H1 H. apply get_variable_ok_inv in H.
  destruct H as (_ & _ & _ & [(_ & Hfind & _) | (Hr & _ & Hnew & Hvars)]).
  - rewrite Hv, (find_app_none _ _ _ H0 H1) in Hfind. discriminate Hfind.
  - rewrite Hvars, Hv, <- app_assoc. auto.
Qed.

Lemma filter_none {A} (f : A -> bool) (l : list A) :
  (forall a, In a l -> f a = false) -> filter f l = [].
Proof.
  induction l as [| a l IH]; cbn; intros H; [reflexivity |].
  rewrite (H a (or_introl eq_refl)). apply IH. intros b Hb. apply H. now right.
Qed.

Lemma same_var_other_role scope ro ro' trainable init :
  role_eqb ro' ro = false ->
  same_var scope ro {| var_scope := scope; var_role := ro';
                       var_trainable := trainable;
                       var_initializer := init |} = false.
Proof. intros H. unfold same_var. cbn. rewrite H. apply andb_false_r. Qed.

(** On a fresh scope the primitive creates its variables: the variables of
    the graph afterwards are those it had, followed by the two kernels and
    the bias when one is asked for. *)
Lemma separable_conv_fresh r vs (kw : PrimArgs r) g out g1 :
  fresh_scope vs g ->
  scope_name g = vs ->
  separable_conv kw g = (Ok out, g1) ->
  variables g1
  = (variables g
     ++ [ {| var_scope := scope_join vs (kw_name kw);
             var_role := depthwise_kernel;
             var_trainable := kw_trainable kw;
             var_initializer := kw_depthwise_initializer kw |};
          {| var_scope := scope_join vs (kw_name kw);
             var_role := pointwise_kernel;
             var_trainable := kw_trainable kw;
             var_initializer := kw_pointwise_initializer kw |} ]
     ++ (if kw_use_bias kw
         then [ {| var_scope := scope_join vs (kw_name kw);
                   var_role := bias;
                   var_trainable := kw_trainable kw;
                   var_initializer := kw_bias_initializer kw |} ]
         else []))%list.
Proof.
  intros Hfresh Hs H. apply separable_conv_ok_inv in H. rewrite Hs in H.
  destruct H as (dw & pw & bs & ga & gb & gc & Hdw & Hpw & Hbs & _
                 & _ & _ & Hvars & _).
  pose proof (fun ro => find_fresh_scope (kw_name kw) ro Hfresh) as Hnone.
  eapply (@get_variable_creates _ _ _ _ _ _ _ _ (variables g) [])
    in Hdw; [| now rewrite app_nil_r | apply Hnone | reflexivity].
  destruct Hdw as (_ & -> & Ea).
  eapply get_variable_creates in Hpw;
    [| exact Ea | apply Hnone
     | cbn; now rewrite same_var_other_role].
  destruct Hpw as (_ & -> & Eb).
  rewrite Hvars. destruct (kw_use_bias kw).
  - destruct Hbs as (b & Hb & ->).
    eapply get_variable_creates in Hb;
      [| exact Eb | apply Hnone
       | cbn; now rewrite !same_var_other_role].
    destruct Hb as (_ & -> & Ec). rewrite Ec. reflexivity.
  - destruct Hbs as [-> _]. rewrite Eb. reflexivity.
Qed.

Lemma in_collection_created key is_train scope ro init :
  key = GLOBAL_VARIABLES \/ is_train = true ->
  in_collection key {| var_scope := scope; var_role := ro;
                       var_trainable := is_train;
                       var_initializer := init |} = true.
Proof. intros [-> | ->]; [reflexivity | now destruct key]. Qed.

(** C2, amended.  For a layer whose scope name, with the scopes around
    it, is made of letters, digits, ['_'], ['-'] and ['/'] only, so that
    the regular expression of the lookup is a plain prefix: a successful
    application registers, as the parameters of the layer, exactly the
    variables of the collection [TF_GRAPHKEYS_VARIABLES] whose name starts
    with the name of the scope of the layer, as the graph holds them once
    the primitive has run.  When no variable of the graph had such a name
    before the call, and the collection holds the variables that are
    created (it is the collection of all variables, or the layer is
    applied in training mode), these are the depthwise kernel, the
    pointwise kernel, and the bias exactly when a bias initializer was
    supplied. *)
Theorem registers_collection_of_scope key r prev is_train
    (self : Instance r) g ret s' nm :
  SeparableConv.__call__ key prev is_train (self, g) = (Ok ret, s') ->
  name self = Some nm ->
  literal_name (scope_join (scope_name g) nm) = true ->
  exists dwi pwi bi,
    depthwise_init self = Some dwi
    /\ pointwise_init self = Some pwi
    /\ b_init self = Some bi
    /\ _local_weights ret
       = Some (collected key (scope_join (scope_name g) nm) (snd s'))
    /\ (fresh_scope (scope_join (scope_name g) nm) g ->
        key = GLOBAL_VARIABLES \/ is_train = true ->
        collected key (scope_join (scope_name g) nm) (snd s')
        = own_parameters r (scope_join (scope_name g) nm) is_train
            dwi pwi bi).
Proof.
  intros H Hname _. apply call_inv in H. destruct H as [H ->].
  apply call_body_inv in H.
  destruct H as (nm' & nf & fs & st & pad & df & dil & dm & dwi & pwi & bi
                 & a & out & g1 & Hnm & _ & _ & _ & _ & _ & _ & _ & Hdw
                 & Hpw & Hb & _ & Hprim & ->).
  rewrite Hname in Hnm. injection Hnm as <-.
  exists dwi, pwi, bi. repeat (split; [assumption |]).
  split; [reflexivity |].
  intros Hfresh Hkey. cbn [snd].
  apply (separable_conv_fresh (vs := scope_join (scope_name g) nm))
    in Hprim; [| exact Hfresh | reflexivity].
  unfold collected, own_parameters. cbn [variables set_scope].
  rewrite Hprim, filter_app, (filter_none _ _).
  - cbn [app call_kwargs kw_name kw_trainable kw_use_bias
           kw_depthwise_initializer kw_pointwise_initializer
           kw_bias_initializer].
    destruct bi; cbn [filter];
      rewrite !in_scope_primitive, !(in_collection_created _ _ _ Hkey);
      reflexivity.
  - intros v Hv. rewrite (Hfresh v Hv). apply andb_false_r.
Qed.

(** The theorem on the first application of the default layer and of a
    layer without bias. *)
Lemma registers_collection_of_scope_witness :
  literal_name (scope_join (scope_name root_graph) "separable_conv1d") = true
  /\ fresh_scope "separable_conv1d" root_graph
  /\ _local_weights (fst (final run_default1d))
     = Some (own_parameters Rank1d "separable_conv1d" true None None
               (Some zeros_initializer))
  /\ _local_weights (fst (final run_no_bias))
     = Some (own_parameters Rank1d "sep" true None None None).
Proof.
  split; [reflexivity | split; [intros v [] | split]].
  - assert (Hrun : run_default1d
                   = (Ok (fst (final run_default1d)), final run_default1d))
      by (vm_compute; reflexivity).
    destruct (@registers_collection_of_scope _ _ _ _ _ _ _ _
                "separable_conv1d" Hrun)
      as (dwi & pwi & bi & Hdw & Hpw & Hb & Hlw & Hfresh);
      [vm_compute; reflexivity | reflexivity |].
    vm_compute in Hdw, Hpw, Hb.
    injection Hdw as <-. injection Hpw as <-. injection Hb as <-.
    rewrite Hlw, Hfresh; [reflexivity | intros v [] | now left].
  - assert (Hrun : run_no_bias
                   = (Ok (fst (final run_no_bias)), final run_no_bias))
      by (vm_compute; reflexivity).
    destruct (@registers_collection_of_scope _ _ _ _ _ _ _ _ "sep" Hrun)
      as (dwi & pwi & bi & Hdw & Hpw & Hb & Hlw & Hfresh);
      [vm_compute; reflexivity | reflexivity |].
    vm_compute in Hdw, Hpw, Hb.
    injection Hdw as <-. injection Hpw as <-. injection Hb as <-.
    rewrite Hlw, Hfresh; [reflexivity | intros v [] | now left].
Defined.

(** ** What an application returns *)

(** C7.  Whatever the previous layer and the training flag, an application
    of a layer of either class that returns, returns the layer instance
    itself, as the application has left it: the receiver, with the
    configuration it had before the call and with its output tensor and
    its parameters set, so that the call can be chained.  (An application
    can also raise: what the framework raises is not caught.) *)
Theorem call_returns_self key r prev is_train (s s' : St r)
    (ret : Instance r) :
  SeparableConv.__call__ key prev is_train s = (Ok ret, s') ->
  ret = fst s'
  /\ config ret = config (fst s)
  /\ exists out ws, outputs ret = Some out /\ _local_weights ret = Some ws.
Proof.
  intros H. destruct s as [self g].
  apply call_inv in H. destruct H as [H ->]. split; [reflexivity |].
  apply call_body_inv in H.
  destruct H as (nm & nf & fs & st & pad & df & dil & dm & dwi & pwi & bi
                 & a & out & g1 & _ & _ & _ & _ & _ & _ & _ & _ & _ & _ & _
                 & _ & _ & ->).
  split; [reflexivity |]. do 2 eexists. split; reflexivity.
Qed.

(** The theorem on the default layers of the two classes. *)
Lemma call_returns_self_witness :
  outcome run_default1d = Ok (fst (final run_default1d))
  /\ outcome run_default2d = Ok (fst (final run_default2d))
  /\ config (fst (final run_default2d)) = config (default_layer Rank2d).
Proof.
  split; [| split].
  - assert (Hrun : exists ret, run_default1d = (Ok ret, final run_default1d))
      by (eexists; vm_compute; reflexivity).
    destruct Hrun as [ret Hrun].
    rewrite <- (proj1 (@call_returns_self _ _ _ _ _ _ _ Hrun)).
    now rewrite Hrun.
  - assert (Hrun : exists ret, run_default2d = (Ok ret, final run_default2d))
      by (eexists; vm_compute; reflexivity).
    destruct Hrun as [ret Hrun].
    rewrite <- (proj1 (@call_returns_self _ _ _ _ _ _ _ Hrun)).
    now rewrite Hrun.
  - assert (Hrun : exists ret, run_default2d = (Ok ret, final run_default2d))
      by (eexists; vm_compute; reflexivity).
    destruct Hrun as [ret Hrun].
    destruct (@call_returns_self _ _ _ _ _ _ _ Hrun) as (Hret & Hcfg & _).
    rewrite <- Hret. exact Hcfg.
Defined.

(** * Further properties of the two classes *)

(** ** Relations kept by every step *)

Section Steps.

Variables (S : Type) (R : S -> S -> Prop).
Hypothesis R_refl : forall s, R s s.
Hypothesis R_trans : forall s1 s2 s3, R s1 s2 -> R s2 s3 -> R s1 s3.

Lemma steps_ret {A} (a : A) : steps R (@ret S A a).
Proof. intros s. apply R_refl. Qed.

Lemma steps_raise {A} (e : exn) : steps R (@raise S A e).
Proof. intros s. apply R_refl. Qed.

Lemma steps_bind {A B} (m : M S A) (f : A -> M S B) :
  steps R m -> (forall a, steps R (f a)) -> steps R (bind m f).
Proof.
  intros Hm Hf s. unfold bind. specialize (Hm s).
  destruct (m s) as [[a | e] s1]; cbn in *; [| exact Hm].
  exact (R_trans Hm (Hf a s1)).
Qed.

End Steps.

Lemma graph_frame_refl g : graph_frame g g.
Proof.
  repeat split; exists []; now rewrite app_nil_r.
Qed.

Lemma graph_frame_trans g1 g2 g3 :
  graph_frame g1 g2 -> graph_frame g2 g3 -> graph_frame g1 g3.
Proof.
  intros (Hn & Hr & [vs Hv] & [ops Ho]) (Hn' & Hr' & [vs' Hv'] & [ops' Ho']).
  repeat split; try congruence.
  - exists (vs ++ vs')%list. now rewrite Hv', Hv, app_assoc.
  - exists (ops ++ ops')%list. now rewrite Ho', Ho, app_assoc.
Qed.

Lemma call_frame_refl {r} (s : St r) : call_frame s s.
Proof. split; [reflexivity | apply graph_frame_refl]. Qed.

Lemma call_frame_trans {r} (s1 s2 s3 : St r) :
  call_frame s1 s2 -> call_frame s2 s3 -> call_frame s1 s3.
Proof.
  intros [Hc Hg] [Hc' Hg']. split; [congruence |].
  exact (graph_frame_trans Hg Hg').
Qed.

Lemma steps_get_variable scope ro trainable reuse init :
  steps graph_frame (get_variable scope ro trainable reuse init).
Proof.
  intros g. unfold get_variable.
  destruct (find _ _), reuse; cbn; try apply graph_frame_refl.
  repeat split; cbn; [eauto |]. exists []. now rewrite app_nil_r.
Qed.

Lemma steps_add_operation op : steps graph_frame (add_operation op).
Proof.
  intros g. repeat split; cbn; [| eauto].
  exists []. now rewrite app_nil_r.
Qed.

Lemma steps_separable_conv r (kw : PrimArgs r) :
  steps graph_frame (separable_conv kw).
Proof.
  intros g. unfold separable_conv. cbv zeta.
  refine ((_ : steps graph_frame _) g).
  do 2 (apply (steps_bind graph_frame_trans);
        [apply steps_get_variable | intros]).
  apply (steps_bind graph_frame_trans); [| intros bs].
  - destruct (kw_use_bias kw);
      [| apply (steps_ret _ graph_frame_refl)].
    apply (steps_bind graph_frame_trans);
      [apply steps_get_variable
      | intros; apply (steps_ret _ graph_frame_refl)].
  - apply (steps_bind graph_frame_trans);
      [apply steps_add_operation
      | intros; apply (steps_ret _ graph_frame_refl)].
Qed.

Lemma steps_getattr {r A} (attr : string) (proj : Instance r -> option A) :
  steps call_frame (getattr attr proj).
Proof.
  intros s. unfold getattr. destruct (proj (fst s)); apply call_frame_refl.
Qed.

Lemma steps_update_self {r} (f : Instance r -> Instance r) :
  (forall i, config (f i) = config i) -> steps call_frame (update_self f).
Proof. intros Hf s. split; [apply Hf | apply graph_frame_refl]. Qed.

Lemma steps_on_graph {r A} (m : M Graph A) :
  steps graph_frame m -> steps call_frame (@on_graph r A m).
Proof.
  intros Hm s. unfold on_graph. specialize (Hm (snd s)).
  destruct (m (snd s)) as [x g']. split; [reflexivity | exact Hm].
Qed.

(** The scope is left as it was found, whatever the body does to the
    rest. *)
Lemma steps_variable_scope {r A} (nm : string) (body : string -> Method r A) :
  (forall vs, steps call_frame (body vs)) ->
  steps call_frame (variable_scope nm body).
Proof.
  intros Hb s. unfold variable_scope. cbv zeta.
  specialize (Hb (scope_join (scope_name (snd s)) nm)
                (fst s, set_scope (scope_join (scope_name (snd s)) nm)
                          (snd s))).
  destruct (body _ _) as [x s1].
  destruct Hb as [Hc (_ & Hr & Hv & Ho)]. cbn in *.
  split; [exact Hc |]. repeat split; assumption.
Qed.

Lemma steps_call_body key r prev is_train :
  steps call_frame (@SeparableConv.__call___body key r prev is_train).
Proof.
  unfold SeparableConv.__call___body.
  assert (Hg : forall A attr (proj : Instance r -> option A),
             steps call_frame (getattr attr proj))
    by (intros; apply steps_getattr).
  assert (Hu : forall f : Instance r -> Instance r,
             (forall i, config (f i) = config i) ->
             steps call_frame (update_self f))
    by (intros; now apply steps_update_self).
  assert (Hq : forall A (m : M Graph A),
             (forall g, snd (m g) = g) -> steps graph_frame m).
  { intros A m Hm g. rewrite Hm. apply graph_frame_refl. }
  pose proof (@call_frame_trans r) as Ht.
  apply (steps_bind Ht); [now apply Hu | intros _].
  apply (steps_bind Ht); [apply steps_on_graph; now apply Hq | intros reuse].
  apply (steps_bind Ht); [apply Hg | intros nm].
  apply (steps_bind Ht).
  - apply steps_variable_scope. intros vs.
    do 12 (apply (steps_bind Ht); [apply Hg | intros]).
    apply (steps_bind Ht);
      [apply steps_on_graph, steps_separable_conv | intros out].
    apply (steps_bind Ht); [now apply Hu | intros _].
    apply (steps_bind Ht); [apply Hg | intros o].
    apply (steps_bind Ht).
    + unfold Layer._apply_activation.
      apply (steps_bind Ht);
        [apply Hg | intros; apply (steps_ret _ call_frame_refl)].
    + intros _.
      apply (steps_bind Ht); [| intros; now apply Hu].
      apply steps_on_graph. now apply Hq.
  - intros _.
    apply (steps_bind Ht); [apply Hg | intros o].
    apply (steps_bind Ht); [now apply Hu | intros _].
    apply (steps_bind Ht); [apply Hg | intros ws]. now apply Hu.
Qed.

Lemma steps_call key r prev is_train :
  steps call_frame (@SeparableConv.__call__ key r prev is_train).
Proof.
  unfold SeparableConv.__call__, force_return_self.
  apply (steps_bind (@call_frame_trans r)); [apply steps_call_body |].
  intros _ s. apply call_frame_refl.
Qed.

(** ** What an application keeps *)

(** The description of an instance: the list handed to [_str]. *)
Lemma str_returns_summary Layer__str (r : Rank) (s : St r) :
  SeparableConv.__str__ Layer__str s
  = (Ok (Layer__str r (fst s) (summary_spec (fst s))), s).
Proof.
  unfold SeparableConv.__str__, summary_spec.
  do 6 (erewrite bind_ok by apply try_append_attr).
  erewrite bind_ok by apply try_append_act.
  cbn [app]. now rewrite <- !app_assoc.
Qed.

(** X1.  An application never changes the configuration of the layer:
    whether it returns or raises, the thirteen attributes that the
    constructor stores are afterwards what they were, and so is the
    summary that [__str__] builds from them. *)
Theorem call_keeps_configuration Layer__str key r prev is_train (s : St r) :
  let s' := final (SeparableConv.__call__ key prev is_train s) in
  (prev_layer (fst s') = prev_layer (fst s)
   /\ n_filter (fst s') = n_filter (fst s)
   /\ filter_size (fst s') = filter_size (fst s)
   /\ strides (fst s') = strides (fst s)
   /\ padding (fst s') = padding (fst s)
   /\ data_format (fst s') = data_format (fst s)
   /\ dilation_rate (fst s') = dilation_rate (fst s)
   /\ depth_multiplier (fst s') = depth_multiplier (fst s)
   /\ depthwise_init (fst s') = depthwise_init (fst s)
   /\ pointwise_init (fst s') = pointwise_init (fst s)
   /\ b_init (fst s') = b_init (fst s)
   /\ act (fst s') = act (fst s)
   /\ name (fst s') = name (fst s))
  /\ exists l,
      SeparableConv.__str__ Layer__str s = (Ok (Layer__str r (fst s) l), s)
      /\ SeparableConv.__str__ Layer__str s'
         = (Ok (Layer__str r (fst s') l), s').
Proof.
  intros s'. destruct (steps_call key prev is_train s) as [Hc _].
  fold s' in Hc. split.
  - repeat split.
    + exact (f_equal (@prev_layer r) Hc).
    + exact (f_equal (@n_filter r) Hc).
    + exact (f_equal (@filter_size r) Hc).
    + exact (f_equal (@strides r) Hc).
    + exact (f_equal (@padding r) Hc).
    + exact (f_equal (@data_format r) Hc).
    + exact (f_equal (@dilation_rate r) Hc).
    + exact (f_equal (@depth_multiplier r) Hc).
    + exact (f_equal (@depthwise_init r) Hc).
    + exact (f_equal (@pointwise_init r) Hc).
    + exact (f_equal (@b_init r) Hc).
    + exact (f_equal (@act r) Hc).
    + exact (f_equal (@name r) Hc).
  - exists (summary_spec (fst s)). rewrite !str_returns_summary.
    split; [reflexivity |].
    assert (Hs : summary_spec (fst s') = summary_spec (fst s))
      by exact (f_equal (@summary_spec r) Hc).
    now rewrite Hs.
Qed.

(** X2.  An application leaves the variable scope as it found it: whether
    the body of the [with] block returns or raises, the name of the
    current scope and its reuse flag are afterwards what they were. *)
Theorem call_restores_scope key r prev is_train (s : St r) :
  let s' := final (SeparableConv.__call__ key prev is_train s) in
  scope_name (snd s') = scope_name (snd s)
  /\ scope_reuse (snd s') = scope_reuse (snd s).
Proof.
  intros s'. destruct (steps_call key prev is_train s) as [_ (Hn & Hr & _)].
  split; assumption.
Qed.

Lemma run_eq {S A} (x : Result A * S) (a : A) :
  outcome x = Ok a -> x = (Ok a, final x).
Proof. destruct x as [o s]. cbn. now intros ->. Qed.

(** A successful [get_variable] appends at most one variable, of the scope
    and the trainable flag it was asked for. *)
Lemma get_variable_grows scope ro trainable reuse init g v g' :
  get_variable scope ro trainable reuse init g = (Ok v, g') ->
  exists l,
    variables g' = (variables g ++ l)%list
    /\ (List.length l <= 1)%nat
    /\ Forall (fun w => var_scope w = scope /\ var_trainable w = trainable) l.
Proof.
  intros H. apply get_variable_ok_inv in H.
  destruct H as (_ & _ & _ & [(_ & _ & ->) | (_ & _ & -> & Hv)]).
  - exists []. rewrite app_nil_r. auto.
  - eexists. split; [exact Hv |]. cbn. split; [lia |].
    constructor; [now cbn | constructor].
Qed.

(** X3.  An application only adds to the graph: whether it returns or
    raises, the variables and the operations that the graph had are still
    there, in the same order, before whatever was added.  When it returns
    it has added exactly one operation and at most three variables, all of
    them in the scope of the primitive under the scope of the layer and
    trainable exactly when [is_train] is set. *)
Theorem call_only_extends_graph key r prev is_train (s : St r) :
  let run := SeparableConv.__call__ key prev is_train s in
  (exists vs ops,
      variables (snd (final run)) = (variables (snd s) ++ vs)%list
      /\ operations (snd (final run)) = (operations (snd s) ++ ops)%list)
  /\ (forall ret,
         outcome run = Ok ret ->
         exists nm vs op,
           name (fst s) = Some nm
           /\ variables (snd (final run)) = (variables (snd s) ++ vs)%list
           /\ (List.length vs <= 3)%nat
           /\ Forall
                (fun v =>
                   var_scope v
                   = scope_join (scope_join (scope_name (snd s)) nm)
                       (primitive_name r)
                   /\ var_trainable v = is_train) vs
           /\ operations (snd (final run))
              = (operations (snd s) ++ [op])%list).
Proof.
  intros run. split.
  - destruct (steps_call key prev is_train s)
      as [_ (_ & _ & [vs Hv] & [ops Ho])].
    exists vs, ops. split; assumption.
  - intros ret Hok. apply run_eq in Hok. destruct s as [self g].
    apply call_inv in Hok. destruct Hok as [Hok _].
    apply call_body_inv in Hok.
    destruct Hok as (nm & nf & fs & st & pad & df & dil & dm & dwi & pwi
                     & bi & a & out & g1 & Hnm & _ & _ & _ & _ & _ & _ & _
                     & _ & _ & _ & _ & Hprim & ->).
    pose proof (separable_conv_operation _ _ Hprim eq_refl) as (ws & Hops & _).
    apply separable_conv_ok_inv in Hprim.
    destruct Hprim as (dw & pw & bs & ga & gb & gc & Hdw & Hpw & Hbs & _
                       & _ & _ & Hvars & _).
    apply get_variable_grows in Hdw. destruct Hdw as (l1 & E1 & L1 & F1).
    apply get_variable_grows in Hpw. destruct Hpw as (l2 & E2 & L2 & F2).
    assert (Hb : exists l3,
               variables gc = (variables gb ++ l3)%list
               /\ (List.length l3 <= 1)%nat
               /\ Forall
                    (fun w =>
                       var_scope w
                       = scope_join (scope_join (scope_name g) nm)
                           (primitive_name r)
                       /\ var_trainable w = is_train) l3).
    { destruct (kw_use_bias _).
      - destruct Hbs as (b & Hb & _). now apply get_variable_grows in Hb.
      - destruct Hbs as [-> _]. exists []. rewrite app_nil_r. auto. }
    destruct Hb as (l3 & E3 & L3 & F3).
    exists nm, (l1 ++ l2 ++ l3)%list. eexists.
    split; [exact Hnm |]. cbn [fst snd final set_scope variables operations].
    split; [| split; [| split]].
    + rewrite Hvars, E3, E2, E1. cbn. now rewrite <- !app_assoc.
    + rewrite !length_app. lia.
    + rewrite !Forall_app. auto.
    + exact Hops.
Qed.

(** The theorem on the first application of the default layer of the 1D
    class. *)
Lemma call_only_extends_graph_witness :
  exists nm vs op,
    name (default_layer Rank1d) = Some nm
    /\ variables (snd (final run_default1d))
       = (variables root_graph ++ vs)%list
    /\ (List.length vs <= 3)%nat
    /\ Forall
         (fun v =>
            var_scope v
            = scope_join (scope_join (scope_name root_graph) nm)
                (primitive_name Rank1d)
            /\ var_trainable v = true) vs
    /\ operations (snd (final run_default1d))
       = (operations root_graph ++ [op])%list.
Proof.
  assert (Hok : outcome run_default1d = Ok (fst (final run_default1d)))
    by (vm_compute; reflexivity).
  exact (proj2 (@call_only_extends_graph GLOBAL_VARIABLES Rank1d input_layer
                  true (default_layer Rank1d, root_graph)) _ Hok).
Defined.

(** X4.  An application forwards the configuration to the primitive as it
    was given to the constructor: the operation that a successful
    application adds carries the arguments of the constructor, or their
    defaults, unchanged (the padding in the case it was written in), the
    output tensor of the previous layer as input, no activation, the
    training flag as [trainable], the reuse flag of the current scope as
    [reuse] and the fixed name of the primitive. *)
Theorem call_forwards_configuration key r (a : Args r) g0 s0 prev is_train g
    ret s' :
  SeparableConv.construct a g0 = (Ok tt, s0) ->
  SeparableConv.__call__ key prev is_train (fst s0, g) = (Ok ret, s') ->
  exists ws,
    operations (snd s')
    = (operations g
       ++ [{| op_rank := r;
              op_kwargs :=
                call_kwargs (layer_outputs prev)
                  (keyword (arg_n_filter a) 100%Z)
                  (keyword (arg_filter_size a) (default_filter_size r))
                  (keyword (arg_strides a) (default_strides r))
                  (keyword (arg_padding a) "valid")
                  (keyword (arg_data_format a) "channels_last")
                  (keyword (arg_dilation_rate a) (default_dilation_rate r))
                  (keyword (arg_depth_multiplier a) 1%Z)
                  (keyword (arg_depthwise_init a) None)
                  (keyword (arg_pointwise_init a) None)
                  (keyword (arg_b_init a) (Some zeros_initializer))
                  is_train (scope_reuse g);
              op_weights := ws |}])%list.
Proof.
  intros Hc H. apply construct_stores in Hc. subst s0. cbn [fst] in H.
  apply call_inv in H. destruct H as [H _]. apply call_body_inv in H.
  destruct H as (nm & nf & fs & st & pad & df & dil & dm & dwi & pwi & bi
                 & ac & out & g1 & Hnm & Hnf & Hfs & Hst & Hpad & Hdf & Hdil
                 & Hdm & Hdwi & Hpwi & Hbi & _ & Hprim & ->).
  cbn in Hnm, Hnf, Hfs, Hst, Hpad, Hdf, Hdil, Hdm, Hdwi, Hpwi, Hbi.
  injection Hnf as <-. injection Hfs as <-. injection Hst as <-.
  injection Hpad as <-. injection Hdf as <-. injection Hdil as <-.
  injection Hdm as <-. injection Hdwi as <-. injection Hpwi as <-.
  injection Hbi as <-.
  apply separable_conv_operation in Hprim; [| reflexivity].
  destruct Hprim as (ws & Hops & _). exists ws. exact Hops.
Qed.

(** The theorem on a layer constructed with 32 filters and the padding
    ['SAME'], applied in the fresh graph. *)
Lemma call_forwards_configuration_witness :
  exists kw ws,
    operations
      (snd (final (SeparableConv.__call__ GLOBAL_VARIABLES input_layer false
                     (fst (final (SeparableConv.construct
                                    (custom_args Rank2d) root_graph)),
                      root_graph))))
    = (operations root_graph
       ++ [{| op_rank := Rank2d; op_kwargs := kw; op_weights := ws |}])%list
    /\ kw_filters kw = 32%Z
    /\ kw_padding kw = "SAME"
    /\ kw_data_format kw = "channels_last"
    /\ kw_activation kw = None
    /\ kw_trainable kw = false
    /\ kw_name kw = "separable_conv2d".
Proof.
  assert (Hc : SeparableConv.construct (custom_args Rank2d) root_graph
               = (Ok tt,
                  final (SeparableConv.construct (custom_args Rank2d)
                           root_graph)))
    by (vm_compute; reflexivity).
  pose (run := SeparableConv.__call__ GLOBAL_VARIABLES input_layer false
                 (fst (final (SeparableConv.construct
                                (custom_args Rank2d) root_graph)),
                  root_graph)).
  assert (Hrun : run = (Ok (fst (final run)), final run))
    by (vm_compute; reflexivity).
  destruct (@call_forwards_configuration GLOBAL_VARIABLES Rank2d
              (custom_args Rank2d) root_graph _ input_layer false root_graph
              _ _ Hc Hrun) as (ws & Hops).
  eexists. exists ws. split; [exact Hops |].
  cbn. auto 10.
Defined.

(** ** The configurations that the constructor accepts *)

(** X5.  The constructor succeeds exactly on the configurations whose
    channel order is one of the two values and whose padding is ["same"]
    or ["valid"] up to case; it always succeeds when both arguments are
    left out.  Every instance it has constructed therefore holds such a
    channel order and such a padding, stored as they were written. *)
Theorem construct_succeeds_iff_valid r (a : Args r) g :
  (outcome (SeparableConv.construct a g) = Ok tt
   <-> (keyword (arg_data_format a) "channels_last" = "channels_last"
        \/ keyword (arg_data_format a) "channels_last" = "channels_first")
       /\ (Py.lower (keyword (arg_padding a) "valid") = "same"
           \/ Py.lower (keyword (arg_padding a) "valid") = "valid"))
  /\ (arg_data_format a = None -> arg_padding a = None ->
      outcome (SeparableConv.construct a g) = Ok tt)
  /\ (forall self g',
         SeparableConv.construct a g = (Ok tt, (self, g')) ->
         exists df pad,
           data_format self = Some df
           /\ (df = "channels_last" \/ df = "channels_first")
           /\ padding self = Some pad
           /\ (Py.lower pad = "same" \/ Py.lower pad = "valid")).
Proof.
  assert (Hiff : outcome (SeparableConv.construct a g) = Ok tt
                 <-> (keyword (arg_data_format a) "channels_last"
                      = "channels_last"
                      \/ keyword (arg_data_format a) "channels_last"
                         = "channels_first")
                     /\ (Py.lower (keyword (arg_padding a) "valid") = "same"
                         \/ Py.lower (keyword (arg_padding a) "valid")
                            = "valid")).
  { rewrite <- !str_in_two.
    unfold SeparableConv.construct, SeparableConv.__init__.
    destruct (Py.str_in (keyword (arg_data_format a) _) _);
      destruct (Py.str_in (Py.lower (keyword (arg_padding a) _)) _);
      cbn; split; try tauto; try discriminate; intros [? ?]; discriminate. }
  split; [exact Hiff | split].
  - intros Hd Hp. apply Hiff. rewrite Hd, Hp. cbn. auto.
  - intros self g' H.
    assert (Hok : outcome (SeparableConv.construct a g) = Ok tt)
      by now rewrite H.
    apply Hiff in Hok. destruct Hok as [Hd Hp].
    apply construct_stores in H. injection H as -> _.
    do 2 eexists. cbn. eauto.
Qed.

(** The theorem on a call that gives the padding ['SAME'], and on a call
    that gives nothing. *)
Lemma construct_succeeds_iff_valid_witness :
  outcome (SeparableConv.construct (custom_args Rank1d) root_graph) = Ok tt
  /\ outcome (SeparableConv.construct (no_args Rank2d) root_graph) = Ok tt
  /\ exists pad,
      padding (fst (final (SeparableConv.construct (custom_args Rank1d)
                             root_graph)))
      = Some pad
      /\ (Py.lower pad = "same" \/ Py.lower pad = "valid").
Proof.
  split; [| split].
  - apply (proj1 (@construct_succeeds_iff_valid Rank1d (custom_args Rank1d)
                    root_graph)).
    split; [left | left]; reflexivity.
  - apply (proj1 (proj2 (@construct_succeeds_iff_valid Rank2d
                           (no_args Rank2d) root_graph)));
      reflexivity.
  - assert (Hc : SeparableConv.construct (custom_args Rank1d) root_graph
                 = (Ok tt,
                    (fst (final (SeparableConv.construct
                                   (custom_args Rank1d) root_graph)),
                     root_graph)))
      by (vm_compute; reflexivity).
    destruct (proj2 (proj2 (@construct_succeeds_iff_valid Rank1d
                              (custom_args Rank1d) root_graph)) _ _ Hc)
      as (df & pad & _ & _ & Hpad & Hvalid).
    exists pad. split; assumption.
Defined.

(** ** Applying an instance that lacks an attribute *)

(** X6.  The attributes of the configuration are all read before the
    primitive is called.  Take an instance whose name, when it is set, is
    a name that TensorFlow accepts as a scope.  When one of the eleven
    attributes that the call of the primitive reads is not set, the
    application raises an [AttributeError] and has added nothing to the
    graph, which is as it was; neither [outputs] nor [_local_weights] has
    been assigned, while [inputs] has already been taken from the previous
    layer. *)
Theorem call_needs_configuration key r prev is_train (self : Instance r) g :
  (forall nm, name self = Some nm -> safe_scope_name nm = true) ->
  name self = None \/ n_filter self = None \/ filter_size self = None
  \/ strides self = None \/ padding self = None \/ data_format self = None
  \/ dilation_rate self = None \/ depth_multiplier self = None
  \/ b_init self = None \/ depthwise_init self = None
  \/ pointwise_init self = None ->
  exists attr s',
    SeparableConv.__call__ key prev is_train (self, g)
    = (Raise (AttributeError attr), s')
    /\ snd s' = g
    /\ inputs (fst s') = Some (layer_outputs prev)
    /\ outputs (fst s') = outputs self
    /\ _local_weights (fst s') = _local_weights self.
Proof.
  intros _ H. destruct g as [sn sr vars ops].
  unfold SeparableConv.__call__, force_return_self,
    SeparableConv.__call___body, Layer.__call__, Layer._apply_activation,
    Layer._add_layers, Layer._add_params, get_variable_scope_reuse,
    get_collection, bind, update_self, on_graph, getattr, variable_scope,
    ret.
  cbn -[separable_conv filter].
  destruct (name self);
    [cbn -[separable_conv filter]
    | do 2 eexists; split; [reflexivity | now repeat split]].
  destruct (n_filter self);
    [cbn -[separable_conv filter]
    | do 2 eexists; split; [reflexivity | now repeat split]].
  destruct (filter_size self);
    [cbn -[separable_conv filter]
    | do 2 eexists; split; [reflexivity | now repeat split]].
  destruct (strides self);
    [cbn -[separable_conv filter]
    | do 2 eexists; split; [reflexivity | now repeat split]].
  destruct (padding self);
    [cbn -[separable_conv filter]
    | do 2 eexists; split; [reflexivity | now repeat split]].
  destruct (data_format self);
    [cbn -[separable_conv filter]
    | do 2 eexists; split; [reflexivity | now repeat split]].
  destruct (dilation_rate self);
    [cbn -[separable_conv filter]
    | do 2 eexists; split; [reflexivity | now repeat split]].
  destruct (depth_multiplier self);
    [cbn -[separable_conv filter]
    | do 2 eexists; split; [reflexivity | now repeat split]].
  destruct (b_init self);
    [cbn -[separable_conv filter]
    | do 2 eexists; split; [reflexivity | now repeat split]].
  destruct (depthwise_init self);
    [cbn -[separable_conv filter]
    | do 2 eexists; split; [reflexivity | now repeat split]].
  destruct (pointwise_init self);
    [| do 2 eexists; split; [reflexivity | now repeat split]].
  exfalso. repeat destruct H as [H | H]; discriminate H.
Qed.

(** The theorem on a freshly allocated object, which has no attribute, and
    on an instance that has a name and nothing else. *)
Lemma call_needs_configuration_witness :
  (exists attr s',
      SeparableConv2d.__call__ GLOBAL_VARIABLES input_layer true
        (empty_instance Rank2d, graph_after_default Rank1d)
      = (Raise (AttributeError attr), s')
      /\ snd s' = graph_after_default Rank1d
      /\ inputs (fst s') = Some (layer_outputs input_layer)
      /\ outputs (fst s') = outputs (empty_instance Rank2d)
      /\ _local_weights (fst s') = _local_weights (empty_instance Rank2d))
  /\ safe_scope_name "sep" = true
  /\ exists attr s',
      SeparableConv1d.__call__ GLOBAL_VARIABLES input_layer true
        (only_named Rank1d "sep", root_graph)
      = (Raise (AttributeError attr), s')
      /\ snd s' = root_graph
      /\ inputs (fst s') = Some (layer_outputs input_layer)
      /\ outputs (fst s') = outputs (only_named Rank1d "sep")
      /\ _local_weights (fst s') = _local_weights (only_named Rank1d "sep").
Proof.
  split; [| split; [reflexivity |]].
  - apply (@call_needs_configuration GLOBAL_VARIABLES Rank2d input_layer true
             (empty_instance Rank2d) (graph_after_default Rank1d)).
    + intros nm H. discriminate H.
    + left. reflexivity.
  - apply (@call_needs_configuration GLOBAL_VARIABLES Rank1d input_layer true
             (only_named Rank1d "sep") root_graph).
    + intros nm [= <-]. reflexivity.
    + right. left. reflexivity.
Defined.

(** ** The description of a constructed layer *)

(** X7.  For a layer that has been constructed, whatever the graph and
    whether or not it has been applied since, the list that [__str__]
    hands to [_str] has the six entries of the configuration, none left
    out, in the order of the source, with the padding as it was written.
    Then comes ["act: "] and the name of the activation; or
    ["No Activation"] alone, without that prefix, when there is none; or
    nothing at all when the activation is a callable without a
    [__name__]. *)
Theorem describe_constructed Layer__str r (a : Args r) g0 s0
    (self : Instance r) g :
  SeparableConv.construct a g0 = (Ok tt, s0) ->
  config self = config (fst s0) ->
  SeparableConv.__str__ Layer__str (self, g)
  = (Ok (Layer__str r self
           (List.app
              [ "n_filter: " ++ Py.str_int (keyword (arg_n_filter a) 100%Z);
              fmt_filter_size r
                (keyword (arg_filter_size a) (default_filter_size r));
              fmt_strides r (keyword (arg_strides a) (default_strides r));
              "padding: " ++ keyword (arg_padding a) "valid";
              fmt_dilation_rate r
                (keyword (arg_dilation_rate a) (default_dilation_rate r));
              "depth_multiplier: "
              ++ Py.str_int (keyword (arg_depth_multiplier a) 1%Z) ]
              match keyword (arg_act a) None with
              | None => ["No Activation"]
              | Some f =>
                  match act_name f with
                  | Some nm => ["act: " ++ nm]
                  | None => []
                  end
              end)),
     (self, g)).
Proof.
  intros Hc Hcfg. apply construct_stores in Hc. subst s0. cbn [fst] in Hcfg.
  rewrite str_returns_summary. cbn [fst]. do 2 f_equal.
  assert (Hs : summary_spec self
               = summary_spec
                   (SeparableConv.store_config
                      (keyword (arg_prev_layer a) None)
                      (keyword (arg_n_filter a) 100%Z)
                      (keyword (arg_filter_size a) (default_filter_size r))
                      (keyword (arg_strides a) (default_strides r))
                      (keyword (arg_padding a) "valid")
                      (keyword (arg_data_format a) "channels_last")
                      (keyword (arg_dilation_rate a)
                         (default_dilation_rate r))
                      (keyword (arg_depth_multiplier a) 1%Z)
                      (keyword (arg_depthwise_init a) None)
                      (keyword (arg_pointwise_init a) None)
                      (keyword (arg_b_init a) (Some zeros_initializer))
                      (keyword (arg_act a) None)
                      (keyword (arg_name a) (default_name r))
                      (empty_instance r)))
    by exact (f_equal (@summary_spec r) Hcfg).
  rewrite Hs. unfold summary_spec, entry, act_entry. cbn.
  destruct (keyword (arg_act a) None) as [f |]; [| reflexivity].
  destruct (act_name f); reflexivity.
Qed.

(** The theorem on a layer with [tf.nn.relu], described after it has been
    applied, and on a layer whose activation has no name. *)
Lemma describe_constructed_witness :
  outcome
    (SeparableConv.__str__ join_entries
       (final (SeparableConv.__call__ GLOBAL_VARIABLES input_layer true
                 (fst (final (SeparableConv.construct (custom_args Rank1d)
                                root_graph)),
                  root_graph))))
  = Ok "n_filter: 32, filter_size: 3, strides: 1, padding: SAME, dilation_rate: 1, depth_multiplier: 1, act: relu"
  /\ outcome
       (SeparableConv.__str__ join_entries
          (final (SeparableConv.construct (nameless_args Rank2d)
                    root_graph)))
     = Ok "n_filter: 100, filter_size: (3, 3), stride: (1, 1), padding: valid, dilation_rate: (1, 1), depth_multiplier: 1".
Proof.
  split.
  - pose (s0 := final (SeparableConv.construct (custom_args Rank1d)
                         root_graph)).
    pose (s1 := final (SeparableConv.__call__ GLOBAL_VARIABLES input_layer
                         true (fst s0, root_graph))).
    assert (Hc : SeparableConv.construct (custom_args Rank1d) root_graph
                 = (Ok tt, s0)) by (vm_compute; reflexivity).
    assert (Hcfg : config (fst s1) = config (fst s0))
      by (vm_compute; reflexivity).
    assert (Hs : (fst s1, snd s1) = s1) by now destruct s1.
    fold s0. fold s1. rewrite <- Hs.
    rewrite (@describe_constructed join_entries Rank1d (custom_args Rank1d)
               root_graph s0 (fst s1) (snd s1) Hc Hcfg).
    reflexivity.
  - pose (s0 := final (SeparableConv.construct (nameless_args Rank2d)
                         root_graph)).
    assert (Hc : SeparableConv.construct (nameless_args Rank2d) root_graph
                 = (Ok tt, s0)) by (vm_compute; reflexivity).
    assert (Hs : (fst s0, snd s0) = s0) by now destruct s0.
    fold s0. rewrite <- Hs.
    rewrite (@describe_constructed join_entries Rank2d (nameless_args Rank2d)
               root_graph s0 (fst s0) (snd s0) Hc eq_refl).
    reflexivity.
Defined.

(** ** Applications under reuse *)

(** X8.  The layer reads the reuse flag of the current scope before it
    opens its own and hands it to the primitive.  When that flag is
    [True], and the scope name of the layer is made of letters, digits,
    ['_'], ['-'] and ['/'] only, a successful application allocates
    nothing: the variables of the graph are afterwards what they were, and
    the parameters that the layer registers are the variables that were
    already collected under its scope name, so that two layers applied
    under the same name with the flag set register the same parameters. *)
Theorem call_under_reuse_shares_variables key r prev is_train
    (self : Instance r) g ret s' nm :
  scope_reuse g = true ->
  name self = Some nm ->
  literal_name (scope_join (scope_name g) nm) = true ->
  SeparableConv.__call__ key prev is_train (self, g) = (Ok ret, s') ->
  variables (snd s') = variables g
  /\ _local_weights ret
     = Some (collected key (scope_join (scope_name g) nm) g).
Proof.
  intros Hreuse Hname _ H. apply call_inv in H. destruct H as [H ->].
  apply call_body_inv in H.
  destruct H as (nm' & nf & fs & st & pad & df & dil & dm & dwi & pwi & bi
                 & a & out & g1 & Hnm & _ & _ & _ & _ & _ & _ & _ & _ & _
                 & _ & _ & Hprim & ->).
  rewrite Hname in Hnm. injection Hnm as <-.
  apply separable_conv_ok_inv in Hprim.
  destruct Hprim as (dw & pw & bs & ga & gb & gc & Hdw & Hpw & Hbs & _
                     & _ & _ & Hvars & _).
  cbn [call_kwargs kw_reuse scope_reuse set_scope] in Hdw, Hpw, Hbs.
  rewrite Hreuse in Hdw, Hpw, Hbs. cbn [orb] in Hdw, Hpw, Hbs.
  apply get_variable_ok_inv in Hdw.
  destruct Hdw as (_ & _ & _ & [(_ & _ & ->) | (Hf & _)]);
    [| discriminate Hf].
  apply get_variable_ok_inv in Hpw.
  destruct Hpw as (_ & _ & _ & [(_ & _ & ->) | (Hf & _)]);
    [| discriminate Hf].
  assert (Hgc : variables gc
                = variables (set_scope (scope_join (scope_name g) nm) g)).
  { destruct (kw_use_bias _).
    - destruct Hbs as (b & Hb & _). apply get_variable_ok_inv in Hb.
      destruct Hb as (_ & _ & _ & [(_ & _ & ->) | (Hf & _)]);
        [reflexivity | discriminate Hf].
    - now destruct Hbs as [-> _]. }
  assert (Hg1 : variables g1 = variables g) by now rewrite Hvars, Hgc.
  split; [exact Hg1 |].
  unfold applied_instance, collected. cbn. now rewrite Hg1.
Qed.

Local Abbreviation run_shared :=
  (SeparableConv.__call__ GLOBAL_VARIABLES input_layer true
     (default_layer Rank1d, reusing (graph_after_default Rank1d))).

(** The theorem on the default layer applied a second time, with the
    reuse flag set. *)
Lemma call_under_reuse_shares_variables_witness :
  variables (snd (final run_shared))
  = variables (reusing (graph_after_default Rank1d))
  /\ _local_weights (fst (final run_shared))
     = _local_weights (fst (final run_default1d)).
Proof.
  assert (Hrun : run_shared
                 = (Ok (fst (final run_shared)), final run_shared))
    by (vm_compute; reflexivity).
  assert (Hname : name (default_layer Rank1d) = Some "separable_conv1d")
    by (vm_compute; reflexivity).
  assert (Hlit : literal_name
                   (scope_join
                      (scope_name (reusing (graph_after_default Rank1d)))
                      "separable_conv1d") = true)
    by (vm_compute; reflexivity).
  destruct (@call_under_reuse_shares_variables GLOBAL_VARIABLES Rank1d
              input_layer true (default_layer Rank1d)
              (reusing (graph_after_default Rank1d)) _ _ "separable_conv1d"
              eq_refl Hname Hlit Hrun)
    as (Hv & Hlw).
  split; [exact Hv |]. rewrite Hlw. vm_compute. reflexivity.
Defined.

(** ** Variables that were in the scope before *)

(** X9.  The layer registers whatever the collection holds under its
    scope name, so every variable of the collection that the graph
    already had under a name starting with that scope name is among the
    parameters that a successful application registers, whichever layer
    created it. *)
Theorem call_registers_earlier_variables key r prev is_train
    (self : Instance r) g ret s' nm v :
  SeparableConv.__call__ key prev is_train (self, g) = (Ok ret, s') ->
  name self = Some nm ->
  In v (collected key (scope_join (scope_name g) nm) g) ->
  exists ws, _local_weights ret = Some ws /\ In v ws.
Proof.
  intros H Hname Hv. apply call_inv in H. destruct H as [H ->].
  apply call_body_inv in H.
  destruct H as (nm' & nf & fs & st & pad & df & dil & dm & dwi & pwi & bi
                 & a & out & g1 & Hnm & _ & _ & _ & _ & _ & _ & _ & _ & _
                 & _ & _ & Hprim & ->).
  rewrite Hname in Hnm. injection Hnm as <-.
  eexists. split; [reflexivity |].
  pose proof (steps_separable_conv
                (call_kwargs (layer_outputs prev) nf fs st pad df dil dm
                   dwi pwi bi is_train (scope_reuse g))
                (set_scope (scope_join (scope_name g) nm) g))
    as (_ & _ & [l Hl] & _).
  rewrite Hprim in Hl. cbn in Hl.
  unfold collected in *. cbn [variables set_scope].
  rewrite Hl, filter_app. apply in_or_app. now left.
Qed.

(** The theorem on the default layer of the 1D class, whose scope is
    ['separable_conv1d'], applied after a layer whose scope is
    ['separable_conv1d_1']: it registers six variables. *)
Lemma call_registers_earlier_variables_witness :
  let run :=
    SeparableConv.__call__ GLOBAL_VARIABLES input_layer true
      (default_layer Rank1d, graph_after_numbered) in
  let v := {| var_scope := "separable_conv1d_1/separable_conv1d";
              var_role := bias; var_trainable := true;
              var_initializer := Some zeros_initializer |} in
  (exists ws, _local_weights (fst (final run)) = Some ws /\ In v ws)
  /\ option_map (@List.length TFVar) (_local_weights (fst (final run)))
     = Some 6%nat.
Proof.
  intros run v. split; [| vm_compute; reflexivity].
  assert (Hrun : run = (Ok (fst (final run)), final run))
    by (vm_compute; reflexivity).
  apply (@call_registers_earlier_variables GLOBAL_VARIABLES Rank1d
           input_layer true (default_layer Rank1d) graph_after_numbered
           _ _ "separable_conv1d" v Hrun).
  - vm_compute. reflexivity.
  - vm_compute. auto.
Defined.
